(** * Chirpy: the chirp cleaning transform, the HTTP handlers and the hit counter

    A shallow embedding of the server with users, chirps, metrics and reset
    (the Go program that follows the two SQL statements in
    [sql/queries/users.sql]) and of those two statements. [main.go] is an
    earlier server with the hit counter only; its [middlewareMetricsInc] is
    the same.

    Go strings are byte sequences: they are modelled as [string], every
    [ascii] standing for one byte, and [len] is [String.length]. *)

From Stdlib Require Import ZArith Ascii String Lia.
From Stdlib Require DecimalString.
From stdpp Require Import base list strings gmap relations.

Local Open Scope Z_scope.

(** ** Bytes *)

Definition byteZ (c : ascii) : Z := Z.of_N (N_of_ascii c).
Definition Zbyte (z : Z) : ascii := ascii_of_N (Z.to_N (z mod 256)).

(** [s[n:]]. *)
Fixpoint sliceFrom (n : nat) (s : string) : string :=
  match n, s with
  | O, _ => s
  | S n', String _ s' => sliceFrom n' s'
  | S _, EmptyString => EmptyString
  end.

(** ** unicode/utf8 *)

Module utf8.

Definition RuneError : Z := 0xFFFD.
Definition RuneSelf : Z := 0x80.
Definition MaxRune : Z := 0x10FFFF.
Definition surrogateMin : Z := 0xD800.
Definition surrogateMax : Z := 0xDFFF.

Definition tx : Z := 0x80.
Definition t2 : Z := 0xC0.
Definition t3 : Z := 0xE0.
Definition t4 : Z := 0xF0.
Definition maskx : Z := 0x3F.
Definition mask2 : Z := 0x1F.
Definition mask3 : Z := 0x0F.
Definition mask4 : Z := 0x07.

Definition rune1Max : Z := 0x7F.
Definition rune2Max : Z := 0x7FF.
Definition rune3Max : Z := 0xFFFF.

Definition locb : Z := 0x80.
Definition hicb : Z := 0xBF.

(** Information about the first byte of an encoding: [xx] is an invalid
    first byte, [as_] an ASCII byte; otherwise the low three bits give the
    size and the high four bits the index of the accept range of the
    second byte. *)
Definition xx : Z := 0xF1.
Definition as_ : Z := 0xF0.
Definition s1 : Z := 0x02.
Definition s2 : Z := 0x13.
Definition s3 : Z := 0x03.
Definition s4 : Z := 0x23.
Definition s5 : Z := 0x34.
Definition s6 : Z := 0x04.
Definition s7 : Z := 0x44.

(** The table [first], written by ranges of the first byte. *)
Definition first (b : Z) : Z :=
  if b <? 0x80 then as_
  else if b <? 0xC2 then xx
  else if b <? 0xE0 then s1
  else if b =? 0xE0 then s2
  else if b <? 0xED then s3
  else if b =? 0xED then s4
  else if b <? 0xF0 then s3
  else if b =? 0xF0 then s5
  else if b <? 0xF4 then s6
  else if b =? 0xF4 then s7
  else xx.

(** [acceptRanges[i]], as the pair (lo, hi); the entries from 5 on are zero. *)
Definition acceptRanges (i : Z) : Z * Z :=
  if i =? 0 then (locb, hicb)
  else if i =? 1 then (0xA0, hicb)
  else if i =? 2 then (locb, 0x9F)
  else if i =? 3 then (0x90, hicb)
  else if i =? 4 then (locb, 0x8F)
  else (0, 0).

(** [s[i]] as a number; the callers index within bounds. *)
Definition at_ (s : string) (i : nat) : Z :=
  match String.get i s with Some c => byteZ c | None => 0 end.

(** [utf8.DecodeRuneInString]: the first rune of [s] and its width in
    bytes; an invalid encoding is [(RuneError, 1)]. *)
Definition DecodeRuneInString (s : string) : Z * nat :=
  let n := Z.of_nat (String.length s) in
  if n <? 1 then (RuneError, 0%nat)
  else
    let s0 := at_ s 0 in
    let x := first s0 in
    if as_ <=? x then
      (* mask := rune(x) << 31 >> 31: all ones for [xx], zero for [as_] *)
      let mask := if Z.odd x then (-1) else 0 in
      (Z.lor (Z.land s0 (Z.lnot mask)) (Z.land RuneError mask), 1%nat)
    else
      let sz := Z.land x 7 in
      let accept := acceptRanges (Z.shiftr x 4) in
      if n <? sz then (RuneError, 1%nat)
      else
        let b1 := at_ s 1 in
        if (b1 <? fst accept) || (snd accept <? b1) then (RuneError, 1%nat)
        else if sz <=? 2 then
          (Z.lor (Z.shiftl (Z.land s0 mask2) 6) (Z.land b1 maskx), 2%nat)
        else
          let b2 := at_ s 2 in
          if (b2 <? locb) || (hicb <? b2) then (RuneError, 1%nat)
          else if sz <=? 3 then
            (Z.lor (Z.lor (Z.shiftl (Z.land s0 mask3) 12)
                          (Z.shiftl (Z.land b1 maskx) 6))
                   (Z.land b2 maskx), 3%nat)
          else
            let b3 := at_ s 3 in
            if (b3 <? locb) || (hicb <? b3) then (RuneError, 1%nat)
            else
              (Z.lor (Z.lor (Z.lor (Z.shiftl (Z.land s0 mask4) 18)
                                   (Z.shiftl (Z.land b1 maskx) 12))
                            (Z.shiftl (Z.land b2 maskx) 6))
                     (Z.land b3 maskx), 4%nat).

(** The three bytes of a rune up to [rune3Max]. *)
Definition encode3 (r : Z) : string :=
  String (Zbyte (Z.lor t3 (Z.shiftr r 12)))
    (String (Zbyte (Z.lor tx (Z.land (Z.shiftr r 6) maskx)))
       (String (Zbyte (Z.lor tx (Z.land r maskx))) EmptyString)).

(** [utf8.AppendRune(nil, r)]: the UTF-8 encoding of [r]; a rune out of
    range or a surrogate is encoded as [RuneError]. *)
Definition AppendRune (r : Z) : string :=
  let i := r mod 2 ^ 32 in (* uint32(r) *)
  if i <=? rune1Max then String (Zbyte r) EmptyString
  else if i <=? rune2Max then
    String (Zbyte (Z.lor t2 (Z.shiftr r 6)))
      (String (Zbyte (Z.lor tx (Z.land r maskx))) EmptyString)
  else if (MaxRune <? i) || ((surrogateMin <=? i) && (i <=? surrogateMax))
  then encode3 RuneError
  else if i <=? rune3Max then encode3 r
  else
    String (Zbyte (Z.lor t4 (Z.shiftr r 18)))
      (String (Zbyte (Z.lor tx (Z.land (Z.shiftr r 12) maskx)))
         (String (Zbyte (Z.lor tx (Z.land (Z.shiftr r 6) maskx)))
            (String (Zbyte (Z.lor tx (Z.land r maskx))) EmptyString))).

(** [utf8.RuneCountInString]: the number of runes of [s], every byte of an
    invalid encoding counting for one; the fuel bounds the number of runes. *)
Fixpoint RuneCount_loop (fuel : nat) (s : string) : nat :=
  match fuel with
  | O => O
  | S fuel' =>
      match s with
      | EmptyString => O
      | _ => S (RuneCount_loop fuel' (sliceFrom (snd (DecodeRuneInString s)) s))
      end
  end.

Definition RuneCountInString (s : string) : nat :=
  RuneCount_loop (String.length s) s.

End utf8.

(** ** unicode *)

Module unicode.

Definition MaxASCII : Z := 0x7F.

Section ToLower.
(** [unicode.To(unicode.LowerCase, r)], the lookup of a rune in the table
    [unicode.CaseRanges]: the Unicode tables are not part of the repository. *)
Variable To_LowerCase : Z -> Z.

(** [unicode.ToLower]. *)
Definition ToLower (r : Z) : Z :=
  if r <=? MaxASCII then
    if (byteZ "A" <=? r) && (r <=? byteZ "Z") then r + (byteZ "a" - byteZ "A")
    else r
  else To_LowerCase r.
End ToLower.

End unicode.

(** ** strings *)

Module strings.

(** [strings.Split(s, sep)] for a separator of one byte: the pieces of [s]
    between the occurrences of [sep]; [Split("", sep)] is [[""]]. *)
Fixpoint Split (s : string) (sep : ascii) : list string :=
  match s with
  | EmptyString => [EmptyString]
  | String c s' =>
      if Ascii.eqb c sep then EmptyString :: Split s' sep
      else match Split s' sep with
           | w :: ws => String c w :: ws
           | [] => [String c EmptyString]
           end
  end.

(** [strings.Join(elems, sep)]. *)
Fixpoint Join (elems : list string) (sep : string) : string :=
  match elems with
  | [] => EmptyString
  | [w] => w
  | w :: ws => w +:+ sep +:+ Join ws sep
  end.

(** The loop of [strings.Map(mapping, s)] over the runes of [s]: every rune
    is decoded, mapped and encoded again; a negative result drops the rune.
    (Go's first loop only postpones the copy until a rune changes.) The
    fuel bounds the number of runes. *)
Fixpoint Map_loop (fuel : nat) (mapping : Z -> Z) (s : string) : string :=
  match fuel with
  | O => EmptyString
  | S fuel' =>
      match s with
      | EmptyString => EmptyString
      | _ =>
          let '(c, width) := utf8.DecodeRuneInString s in
          let r := mapping c in
          (if 0 <=? r then utf8.AppendRune r else EmptyString)
            +:+ Map_loop fuel' mapping (sliceFrom width s)
      end
  end.

Definition Map (mapping : Z -> Z) (s : string) : string :=
  Map_loop (String.length s) mapping s.

Definition isASCII (s : string) : bool :=
  forallb (fun c => byteZ c <? utf8.RuneSelf) (list_ascii_of_string s).

Definition isUpperByte (c : ascii) : bool :=
  (byteZ "A" <=? byteZ c) && (byteZ c <=? byteZ "Z").

Definition hasUpper (s : string) : bool :=
  existsb isUpperByte (list_ascii_of_string s).

(** The ASCII branch of [ToLower]: [c += 'a' - 'A'] on the upper-case bytes. *)
Fixpoint lowerASCII (s : string) : string :=
  match s with
  | EmptyString => EmptyString
  | String c s' =>
      String (if isUpperByte c then Zbyte (byteZ c + (byteZ "a" - byteZ "A")) else c)
             (lowerASCII s')
  end.

Section ToLower.
Variable To_LowerCase : Z -> Z.

(** [strings.ToLower]. *)
Definition ToLower (s : string) : string :=
  if isASCII s then
    if negb (hasUpper s) then s else lowerASCII s
  else Map (unicode.ToLower To_LowerCase) s.
End ToLower.

End strings.

(** ** The cleaning transform of [validateChirpHandler] and [createChirpHandler] *)

Definition profaneWords : list string := ["kerfuffle"; "sharbert"; "fornax"].

Section Cleaning.
Variable To_LowerCase : Z -> Z.

(** The inner loop: [for _, profane := range profaneWords], with its
    assignment [words[i] = "****"] and [break]. *)
Fixpoint maskProfane (wordLower : string) (profanes : list string)
         (i : nat) (words : list string) : list string :=
  match profanes with
  | [] => words
  | profane :: rest =>
      if String.eqb wordLower profane then <[i := "****"]> words
      else maskProfane wordLower rest i words
  end.

(** The outer loop: [for i, word := range words], [n] iterations left. *)
Fixpoint cleanLoop (n : nat) (i : nat) (words : list string) : list string :=
  match n with
  | O => words
  | S n' =>
      match words !! i with
      | Some word =>
          let wordLower := strings.ToLower To_LowerCase word in
          cleanLoop n' (S i) (maskProfane wordLower profaneWords i words)
      | None => words
      end
  end.

(** Lines 147-158 and 246-257: split, mask, join. *)
Definition cleanChirp (body : string) : string :=
  let words := strings.Split body " " in
  strings.Join (cleanLoop (length words) 0 words) " ".

End Cleaning.

(** The transform the specification words describe: split on single spaces,
    lower-case each token, replace the tokens that are denylist words by the
    mask, rejoin with single spaces. *)
Definition cleanChirp_spec (To_LowerCase : Z -> Z) (body : string) : string :=
  strings.Join
    (map (fun tok =>
            let lowered := strings.ToLower To_LowerCase tok in
            if bool_decide (lowered ∈ profaneWords) then "****" else lowered)
         (strings.Split body " "))
    " ".

(** The same with the lower-cased token used for the comparison only. *)
Definition maskWord (To_LowerCase : Z -> Z) (tok : string) : string :=
  if bool_decide (strings.ToLower To_LowerCase tok ∈ profaneWords)
  then "****" else tok.

Definition cleanChirp_ref (To_LowerCase : Z -> Z) (body : string) : string :=
  strings.Join (map (maskWord To_LowerCase) (strings.Split body " ")) " ".

(** Two case tables to evaluate the code with: one that maps every rune
    beyond ASCII to itself, and one that knows the Kelvin sign (U+212A, whose
    lower case is the letter k) and the capital letters of Latin-1. *)
Definition noCase (r : Z) : Z := r.

Definition someCase (r : Z) : Z :=
  if r =? 0x212A then 0x6B
  else if (0xC0 <=? r) && (r <=? 0xDE) && negb (r =? 0xD7) then r + 32
  else r.

(** ** sync/atomic.Int32 *)

Module Int32.
Definition wrap (z : Z) : Z := (z + 2 ^ 31) mod 2 ^ 32 - 2 ^ 31.
Definition Add (v delta : Z) : Z := wrap (v + delta).
Definition MaxInt32 : Z := 2 ^ 31 - 1.
Definition MinInt32 : Z := - 2 ^ 31.
End Int32.

(** ** The database behind [*database.Queries] *)

Module database.

Record User := {
  User_ID : string;
  User_CreatedAt : Z;
  User_UpdatedAt : Z;
  User_Email : string }.

Record Chirp := {
  Chirp_ID : string;
  Chirp_CreatedAt : Z;
  Chirp_UpdatedAt : Z;
  Chirp_Body : string;
  Chirp_UserID : string }.

Record CreateUserParams := {
  CreateUserParams_ID : string;
  CreateUserParams_CreatedAt : Z;
  CreateUserParams_UpdatedAt : Z;
  CreateUserParams_Email : string }.

Record CreateChirpParams := {
  CreateChirpParams_ID : string;
  CreateChirpParams_CreatedAt : Z;
  CreateChirpParams_UpdatedAt : Z;
  CreateChirpParams_Body : string;
  CreateChirpParams_UserID : string }.

(** The two tables. *)
Record Queries := { users : list User; chirps : list Chirp }.

(** Every statement either runs or returns an error (the database refuses
    it or cannot be reached); [fails] says which, and a statement that
    fails changes nothing. *)

(** [CreateUser :one], [INSERT INTO users ... RETURNING *]. *)
Definition CreateUser (fails : bool) (arg : CreateUserParams) (q : Queries)
  : option User * Queries :=
  if fails then (None, q)
  else
    let row := {| User_ID := CreateUserParams_ID arg;
                  User_CreatedAt := CreateUserParams_CreatedAt arg;
                  User_UpdatedAt := CreateUserParams_UpdatedAt arg;
                  User_Email := CreateUserParams_Email arg |} in
    (Some row, {| users := users q ++ [row]; chirps := chirps q |}).

(** [DeleteAllUsers :exec], [DELETE FROM users]; [true] is an error. *)
Definition DeleteAllUsers (fails : bool) (q : Queries) : bool * Queries :=
  if fails then (true, q)
  else (false, {| users := []; chirps := chirps q |}).

(** Modelled from the spec: the statement behind [CreateChirp] is not among
    the queries of the repository; the persistence adapter has "equivalent
    chirp operations", so it inserts the row and returns it. *)
Definition CreateChirp (fails : bool) (arg : CreateChirpParams) (q : Queries)
  : option Chirp * Queries :=
  if fails then (None, q)
  else
    let row := {| Chirp_ID := CreateChirpParams_ID arg;
                  Chirp_CreatedAt := CreateChirpParams_CreatedAt arg;
                  Chirp_UpdatedAt := CreateChirpParams_UpdatedAt arg;
                  Chirp_Body := CreateChirpParams_Body arg;
                  Chirp_UserID := CreateChirpParams_UserID arg |} in
    (Some row, {| users := users q; chirps := chirps q ++ [row] |}).

End database.

(** ** net/http *)

Module http.
Definition MethodGet : string := "GET".
Definition MethodPost : string := "POST".
Definition StatusOK : Z := 200.
Definition StatusCreated : Z := 201.
Definition StatusBadRequest : Z := 400.
Definition StatusForbidden : Z := 403.
Definition StatusMethodNotAllowed : Z := 405.
Definition StatusInternalServerError : Z := 500.

(** A request as the handlers see it: the method, and what
    [io.ReadAll(r.Body)] returns ([None] when reading fails). *)
Record Request := { Method : string; Body : option string }.
End http.

(** ** The JSON payloads of [main.go] *)

Record chirpRequest := { chirpRequest_Body : string }.
Record userRequest := { userRequest_Email : string }.
Record chirpCreateRequest := {
  chirpCreateRequest_Body : string;
  chirpCreateRequest_UserID : string }.

Record chirpResponse := {
  chirpResponse_ID : string;
  chirpResponse_CreatedAt : Z;
  chirpResponse_UpdatedAt : Z;
  chirpResponse_Body : string;
  chirpResponse_UserID : string }.

Record errorResponse := { Error : string }.

Record userResponse := {
  userResponse_ID : string;
  userResponse_CreatedAt : Z;
  userResponse_UpdatedAt : Z;
  userResponse_Email : string }.

(** What a handler writes to the response body: the value given to
    [json.NewEncoder(w).Encode], or plain bytes. *)
Inductive written :=
| JSON_error (v : errorResponse)
| JSON_chirp (v : chirpResponse)
| JSON_user (v : userResponse)
| Bytes (s : string)
| MetricsPage (hits : Z).

Record ResponseWriter := {
  header : gmap string string;
  status : option Z;
  body : list written }.

Definition newResponseWriter : ResponseWriter :=
  {| header := ∅; status := None; body := [] |}.

(** [apiConfig]: the hit counter (an [atomic.Int32]), the database and the
    platform read from the environment at start. *)
Record apiConfig := {
  fileserverHits : Z;
  db : database.Queries;
  platform : string }.

(** What a request gets from outside the program: [uuid.New()], [time.Now()]
    and whether the database statement of the request returns an error. *)
Record Env := { uuid_New : string; time_Now : Z; db_fails : bool }.

(** ** Handlers as state transformers over the configuration and the writer *)

Definition handler (A : Type) : Type :=
  apiConfig * ResponseWriter -> A * (apiConfig * ResponseWriter).

#[global] Instance handler_ret : MRet handler := fun A a st => (a, st).
#[global] Instance handler_bind : MBind handler :=
  fun A B f m st => let '(a, st') := m st in f a st'.

(** [w.WriteHeader(code)]: the first call sets the status. *)
Definition WriteHeader (code : Z) : handler unit :=
  fun '(cfg, w) =>
    (tt, (cfg, match status w with
               | None => {| header := header w; status := Some code; body := body w |}
               | Some _ => w
               end)).

(** [w.Header().Set(key, value)]. *)
Definition Header_Set (key value : string) : handler unit :=
  fun '(cfg, w) =>
    (tt, (cfg, {| header := <[key := value]> (header w);
                  status := status w; body := body w |})).

(** Writing to the body; a write before [WriteHeader] sends status 200. *)
Definition Write (v : written) : handler unit :=
  fun '(cfg, w) =>
    (tt, (cfg, {| header := header w;
                  status := Some (default http.StatusOK (status w));
                  body := body w ++ [v] |})).

Definition fileserverHits_Add (delta : Z) : handler unit :=
  fun '(cfg, w) =>
    (tt, ({| fileserverHits := Int32.Add (fileserverHits cfg) delta;
             db := db cfg; platform := platform cfg |}, w)).

Definition fileserverHits_Store (v : Z) : handler unit :=
  fun '(cfg, w) =>
    (tt, ({| fileserverHits := v; db := db cfg; platform := platform cfg |}, w)).

Definition fileserverHits_Load : handler Z :=
  fun '(cfg, w) => (fileserverHits cfg, (cfg, w)).

Definition cfg_platform : handler string :=
  fun '(cfg, w) => (platform cfg, (cfg, w)).

(** A statement run on [cfg.db]. *)
Definition cfg_db {A : Type} (stmt : database.Queries -> A * database.Queries)
  : handler A :=
  fun '(cfg, w) =>
    let '(a, q) := stmt (db cfg) in
    (a, ({| fileserverHits := fileserverHits cfg; db := q;
            platform := platform cfg |}, w)).

Section Handlers.
Variable To_LowerCase : Z -> Z.

(** [json.Unmarshal(body, &v)] for the three request types; [None] is an
    error. encoding/json is not part of the repository. *)
Variable Unmarshal_chirpRequest : string -> option chirpRequest.
Variable Unmarshal_userRequest : string -> option userRequest.
Variable Unmarshal_chirpCreateRequest : string -> option chirpCreateRequest.

Variable env : Env.

(** [middlewareMetricsInc]: the wrapped handler, run after the increment. *)
Definition middlewareMetricsInc (next : http.Request -> handler unit)
  (r : http.Request) : handler unit :=
  fileserverHits_Add 1 ;;
  next r.

Definition metricsHandler (r : http.Request) : handler unit :=
  if negb (String.eqb (http.Method r) http.MethodGet) then
    WriteHeader http.StatusMethodNotAllowed
  else
    Header_Set "Content-Type" "text/html; charset=utf-8" ;;
    WriteHeader http.StatusOK ;;
    hits ← fileserverHits_Load;
    Write (MetricsPage hits).

Definition healthzHandler (r : http.Request) : handler unit :=
  if negb (String.eqb (http.Method r) http.MethodGet) then
    WriteHeader http.StatusMethodNotAllowed
  else
    Header_Set "Content-Type" "text/plain; charset=utf-8" ;;
    WriteHeader http.StatusOK ;;
    Write (Bytes "OK").

Definition validateChirpHandler (r : http.Request) : handler unit :=
  if negb (String.eqb (http.Method r) http.MethodPost) then
    WriteHeader http.StatusMethodNotAllowed
  else
    match http.Body r with
    | None =>
        WriteHeader http.StatusInternalServerError ;;
        Write (JSON_error {| Error := "Failed to read request" |})
    | Some body =>
        match Unmarshal_chirpRequest body with
        | None =>
            WriteHeader http.StatusBadRequest ;;
            Write (JSON_error {| Error := "Invalid JSON" |})
        | Some chirp =>
            if (140 <? String.length (chirpRequest_Body chirp))%nat then
              WriteHeader http.StatusBadRequest ;;
              Write (JSON_error {| Error := "Chirp is too long" |})
            else
              let cleanedChirp :=
                cleanChirp To_LowerCase (chirpRequest_Body chirp) in
              Header_Set "Content-Type" "application/json" ;;
              WriteHeader http.StatusOK ;;
              Write (JSON_chirp {| chirpResponse_ID := "";
                                   chirpResponse_CreatedAt := 0;
                                   chirpResponse_UpdatedAt := 0;
                                   chirpResponse_Body := cleanedChirp;
                                   chirpResponse_UserID := "" |})
        end
    end.

Definition createUserHandler (r : http.Request) : handler unit :=
  if negb (String.eqb (http.Method r) http.MethodPost) then
    WriteHeader http.StatusMethodNotAllowed
  else
    match http.Body r with
    | None =>
        WriteHeader http.StatusInternalServerError ;;
        Write (JSON_error {| Error := "Failed to read request" |})
    | Some body =>
        match Unmarshal_userRequest body with
        | None =>
            WriteHeader http.StatusBadRequest ;;
            Write (JSON_error {| Error := "Invalid JSON" |})
        | Some req =>
            let now := time_Now env in
            res ← cfg_db (database.CreateUser (db_fails env)
                     {| database.CreateUserParams_ID := uuid_New env;
                        database.CreateUserParams_CreatedAt := now;
                        database.CreateUserParams_UpdatedAt := now;
                        database.CreateUserParams_Email := userRequest_Email req |});
            match res with
            | None =>
                WriteHeader http.StatusInternalServerError ;;
                Write (JSON_error {| Error := "Failed to create user" |})
            | Some user =>
                Header_Set "Content-Type" "application/json" ;;
                WriteHeader http.StatusCreated ;;
                Write (JSON_user
                         {| userResponse_ID := database.User_ID user;
                            userResponse_CreatedAt := database.User_CreatedAt user;
                            userResponse_UpdatedAt := database.User_UpdatedAt user;
                            userResponse_Email := database.User_Email user |})
            end
        end
    end.

Definition createChirpHandler (r : http.Request) : handler unit :=
  if negb (String.eqb (http.Method r) http.MethodPost) then
    WriteHeader http.StatusMethodNotAllowed
  else
    match http.Body r with
    | None =>
        WriteHeader http.StatusInternalServerError ;;
        Write (JSON_error {| Error := "Failed to read request" |})
    | Some body =>
        match Unmarshal_chirpCreateRequest body with
        | None =>
            WriteHeader http.StatusBadRequest ;;
            Write (JSON_error {| Error := "Invalid JSON" |})
        | Some req =>
            if (140 <? String.length (chirpCreateRequest_Body req))%nat then
              WriteHeader http.StatusBadRequest ;;
              Write (JSON_error {| Error := "Chirp is too long" |})
            else
              let cleanedChirp :=
                cleanChirp To_LowerCase (chirpCreateRequest_Body req) in
              let now := time_Now env in
              res ← cfg_db (database.CreateChirp (db_fails env)
                       {| database.CreateChirpParams_ID := uuid_New env;
                          database.CreateChirpParams_CreatedAt := now;
                          database.CreateChirpParams_UpdatedAt := now;
                          database.CreateChirpParams_Body := cleanedChirp;
                          database.CreateChirpParams_UserID :=
                            chirpCreateRequest_UserID req |});
              match res with
              | None =>
                  WriteHeader http.StatusInternalServerError ;;
                  Write (JSON_error {| Error := "Failed to create chirp" |})
              | Some chirp =>
                  Header_Set "Content-Type" "application/json" ;;
                  WriteHeader http.StatusCreated ;;
                  Write (JSON_chirp
                           {| chirpResponse_ID := database.Chirp_ID chirp;
                              chirpResponse_CreatedAt := database.Chirp_CreatedAt chirp;
                              chirpResponse_UpdatedAt := database.Chirp_UpdatedAt chirp;
                              chirpResponse_Body := database.Chirp_Body chirp;
                              chirpResponse_UserID := database.Chirp_UserID chirp |})
              end
        end
    end.

Definition resetHandler (r : http.Request) : handler unit :=
  if negb (String.eqb (http.Method r) http.MethodPost) then
    WriteHeader http.StatusMethodNotAllowed
  else
    platform ← cfg_platform;
    if negb (String.eqb platform "dev") then
      WriteHeader http.StatusForbidden ;;
      Write (JSON_error {| Error := "Reset endpoint only available in dev mode" |})
    else
      fileserverHits_Store 0 ;;
      err ← cfg_db (database.DeleteAllUsers (db_fails env));
      if err : bool then
        WriteHeader http.StatusInternalServerError ;;
        Write (JSON_error {| Error := "Failed to delete users" |})
      else
        WriteHeader http.StatusOK.

(** One request served from a fresh [ResponseWriter]: the configuration
    afterwards and the response. *)
Definition serve (h : http.Request -> handler unit) (cfg : apiConfig)
  (r : http.Request) : apiConfig * ResponseWriter :=
  snd (h r (cfg, newResponseWriter)).

End Handlers.


(** ** Static-file requests served concurrently

    Every request runs [middlewareMetricsInc next]: the atomic
    [cfg.fileserverHits.Add(1)], then [next.ServeHTTP], the file server,
    which does not touch the configuration. The scheduler picks any request
    that has a step left. *)

Module Concurrent.

Inductive pc := AtAdd | AtNext | Returned.

#[global] Instance pc_eq_dec : EqDecision pc.
Proof. solve_decision. Defined.

Record state := { cfg : apiConfig; requests : list pc }.

(** The configuration after a handler step. *)
Definition cfg_after (h : handler unit) (c : apiConfig) : apiConfig :=
  fst (snd (h (c, newResponseWriter))).

Inductive step : state -> state -> Prop :=
| step_Add (i : nat) (st : state) :
    requests st !! i = Some AtAdd ->
    step st {| cfg := cfg_after (fileserverHits_Add 1) (cfg st);
               requests := <[i := AtNext]> (requests st) |}
| step_next (i : nat) (st : state) :
    requests st !! i = Some AtNext ->
    step st {| cfg := cfg st;
               requests := <[i := Returned]> (requests st) |}.

(** [n] requests arrive on the configuration [c]. *)
Definition init (c : apiConfig) (n : nat) : state :=
  {| cfg := c; requests := replicate n AtAdd |}.

Definition complete (st : state) : Prop :=
  Forall (fun p => p = Returned) (requests st).

(** The requests that have passed their increment. *)
Definition counted (ps : list pc) : nat :=
  length (filter (fun p => p <> AtAdd) ps).

(** The schedule that serves the requests one after the other. *)
Fixpoint in_turn (n : nat) (c : apiConfig) : apiConfig :=
  match n with
  | O => c
  | S n' => in_turn n' (cfg_after (fileserverHits_Add 1) c)
  end.

End Concurrent.

(** ** Notions the properties are stated with *)

(** Whether the byte [sep] occurs in [s]. *)
Fixpoint hasByte (sep : ascii) (s : string) : bool :=
  match s with
  | EmptyString => false
  | String c s' => Ascii.eqb c sep || hasByte sep s'
  end.

(** The number of ASCII bytes of [s]. *)
Fixpoint asciiCount (s : string) : nat :=
  match s with
  | EmptyString => 0
  | String c s' =>
      ((if (byteZ c <? utf8.RuneSelf)%Z then 1 else 0) + asciiCount s')%nat
  end.

(** What one round of the loop of [strings.Map] appends. *)
Definition mapped (mapping : Z -> Z) (s : string) : string :=
  let r := mapping (fst (utf8.DecodeRuneInString s)) in
  if 0 <=? r then utf8.AppendRune r else "".

(** Whether [w] occurs in [s]. *)
Fixpoint isInfix (w s : string) : bool :=
  String.prefix w s
  || match s with
     | EmptyString => false
     | String _ s' => isInfix w s'
     end.

(** A stored chirp within the bound of 140 bytes. *)
Definition chirpBodyOK (c : database.Chirp) : Prop :=
  (String.length (database.Chirp_Body c) <= 140)%nat.

(** ** Responses and sample inputs *)

(** The response of an error path: a status and one JSON error object; no
    header is set on these paths. *)
Definition errorWritten (code : Z) (msg : string) : ResponseWriter :=
  {| header := ∅; status := Some code; body := [JSON_error {| Error := msg |}] |}.

(** A response is an error when its status is 400 or above. *)
Definition isError (w : ResponseWriter) : Prop :=
  exists code, status w = Some code /\ 400 <= code.

(** The two classes of the specification: a 4xx status with a JSON error
    object, and status 500 with a JSON error object. *)
Definition clientErrorClass (w : ResponseWriter) : Prop :=
  exists code e, status w = Some code /\ 400 <= code < 500
                 /\ body w = [JSON_error e].

Definition serverErrorClass (w : ResponseWriter) : Prop :=
  exists e, status w = Some 500 /\ body w = [JSON_error e].

(** What can go wrong with a request to [createUserHandler] or
    [createChirpHandler], and the response of each failure ([what] is "user"
    or "chirp"). *)
Inductive failure :=
| WrongMethod | UnreadableBody | MalformedJSON | TooLong | PersistenceFailure.

Definition failureResponse (what : string) (f : failure) : ResponseWriter :=
  match f with
  | WrongMethod =>
      {| header := ∅; status := Some http.StatusMethodNotAllowed; body := [] |}
  | UnreadableBody =>
      errorWritten http.StatusInternalServerError "Failed to read request"
  | MalformedJSON => errorWritten http.StatusBadRequest "Invalid JSON"
  | TooLong => errorWritten http.StatusBadRequest "Chirp is too long"
  | PersistenceFailure =>
      errorWritten http.StatusInternalServerError ("Failed to create " +:+ what)
  end.

(** When a request to [createUserHandler] fails with [f]. *)
Definition userFailure (Unmarshal_userRequest : string -> option userRequest)
    (env : Env) (r : http.Request) (f : failure) : Prop :=
  match f with
  | WrongMethod => http.Method r <> http.MethodPost
  | UnreadableBody => http.Method r = http.MethodPost /\ http.Body r = None
  | MalformedJSON =>
      http.Method r = http.MethodPost
      /\ exists raw, http.Body r = Some raw /\ Unmarshal_userRequest raw = None
  | TooLong => False
  | PersistenceFailure =>
      http.Method r = http.MethodPost
      /\ (exists raw req, http.Body r = Some raw
                          /\ Unmarshal_userRequest raw = Some req)
      /\ db_fails env = true
  end.

(** When a request to [createChirpHandler] fails with [f]. *)
Definition chirpFailure
    (Unmarshal_chirpCreateRequest : string -> option chirpCreateRequest)
    (env : Env) (r : http.Request) (f : failure) : Prop :=
  match f with
  | WrongMethod => http.Method r <> http.MethodPost
  | UnreadableBody => http.Method r = http.MethodPost /\ http.Body r = None
  | MalformedJSON =>
      http.Method r = http.MethodPost
      /\ exists raw, http.Body r = Some raw
                     /\ Unmarshal_chirpCreateRequest raw = None
  | TooLong =>
      http.Method r = http.MethodPost
      /\ exists raw req, http.Body r = Some raw
                         /\ Unmarshal_chirpCreateRequest raw = Some req
                         /\ (140 < String.length (chirpCreateRequest_Body req))%nat
  | PersistenceFailure =>
      http.Method r = http.MethodPost
      /\ (exists raw req, http.Body r = Some raw
                          /\ Unmarshal_chirpCreateRequest raw = Some req
                          /\ (String.length (chirpCreateRequest_Body req) <= 140)%nat)
      /\ db_fails env = true
  end.

(** [n] copies of a byte. *)
Fixpoint repeatByte (n : nat) (c : ascii) : string :=
  match n with
  | O => EmptyString
  | S n' => String c (repeatByte n' c)
  end.

(** Decoders that take the whole text for the single string field. *)
Definition sample_Unmarshal_chirpRequest (raw : string) : option chirpRequest :=
  Some {| chirpRequest_Body := raw |}.
Definition sample_Unmarshal_userRequest (raw : string) : option userRequest :=
  Some {| userRequest_Email := raw |}.
Definition sample_Unmarshal_chirpCreateRequest (raw : string)
  : option chirpCreateRequest :=
  Some {| chirpCreateRequest_Body := raw;
          chirpCreateRequest_UserID := "3fa85f64-5717-4562-b3fc-2c963f66afa6" |}.

Definition sample_env (fails : bool) : Env :=
  {| uuid_New := "0b7a9d0e-8f0a-4c51-9d3c-5d2a4c8f1e11";
     time_Now := 1700000000; db_fails := fails |}.

Definition sample_user : database.User :=
  {| database.User_ID := "7c9e6679-7425-40de-944b-e07fc1f90ae7";
     database.User_CreatedAt := 1690000000;
     database.User_UpdatedAt := 1690000000;
     database.User_Email := "saul@bettercall.com" |}.

Definition sample_cfg (hits : Z) (mode : string) : apiConfig :=
  {| fileserverHits := hits;
     db := {| database.users := [sample_user]; database.chirps := [] |};
     platform := mode |}.

(** ** Requests served one after the other *)

(** The configuration after the requests [rs], each served by [h]. *)
Fixpoint serveAll (h : http.Request -> handler unit) (rs : list http.Request)
    (cfg : apiConfig) : apiConfig :=
  match rs with
  | [] => cfg
  | r :: rs' => serveAll h rs' (fst (serve h cfg r))
  end.

(** A handler that has no access to the configuration, as the file server
    that [main] wraps in [middlewareMetricsInc]. *)
Definition leavesConfig (next : http.Request -> handler unit) : Prop :=
  forall r st, fst (snd (next r st)) = fst st.

(** A stand-in for the file server on a directory without the file. *)
Definition sample_fileServer (r : http.Request) : handler unit :=
  WriteHeader 404 ;;
  Write (Bytes "404 page not found").

(** ** The start of [main] *)

Module os.
(** [os.Getenv(key)]: the value, or the empty text when the variable is unset. *)
Definition Getenv (environ : gmap string string) (key : string) : string :=
  default "" (environ !! key).
End os.

(** What [main] finds when it starts: whether [godotenv.Load] fails, the
    environment of the process once the file is loaded, and what
    [sql.Open("postgres", dbURL)] returns ([None] is an error). *)
Record Process := {
  godotenv_Load_fails : bool;
  environ : gmap string string;
  sql_Open : string -> option database.Queries }.

(** [panic(err)] and [panic("...")]. *)
Inductive panicked :=
| panic_err (from : string)
| panic_msg (msg : string).

(** [main] up to [apiCfg := &apiConfig{...}]: the panic, or the configuration
    the handlers are registered with. The counter starts at the zero value
    of [atomic.Int32]. *)
Definition main_apiCfg (p : Process) : panicked + apiConfig :=
  if godotenv_Load_fails p then inl (panic_err "godotenv.Load")
  else
    let dbURL := os.Getenv (environ p) "DB_URL" in
    if String.eqb dbURL "" then
      inl (panic_msg "DB_URL environment variable is not set")
    else
      let platform := os.Getenv (environ p) "PLATFORM" in
      let platform := if String.eqb platform "" then "prod" else platform in
      match sql_Open p dbURL with
      | None => inl (panic_err "sql.Open")
      | Some queries =>
          inr {| fileserverHits := 0; db := queries; platform := platform |}
      end.

(** ** The earlier server of [main.go]: the hit counter only *)

Module Earlier.

Record apiConfig := { fileserverHits : Z }.

Definition handler (A : Type) : Type :=
  apiConfig * ResponseWriter -> A * (apiConfig * ResponseWriter).

#[global] Instance handler_ret : MRet handler := fun A a st => (a, st).
#[global] Instance handler_bind : MBind handler :=
  fun A B f m st => let '(a, st') := m st in f a st'.

(** The writer, as for the later server. *)
Definition WriteHeader (code : Z) : handler unit :=
  fun '(cfg, w) =>
    (tt, (cfg, match status w with
               | None => {| header := header w; status := Some code; body := body w |}
               | Some _ => w
               end)).

Definition Header_Set (key value : string) : handler unit :=
  fun '(cfg, w) =>
    (tt, (cfg, {| header := <[key := value]> (header w);
                  status := status w; body := body w |})).

Definition Write (v : written) : handler unit :=
  fun '(cfg, w) =>
    (tt, (cfg, {| header := header w;
                  status := Some (default http.StatusOK (status w));
                  body := body w ++ [v] |})).

Definition fileserverHits_Add (delta : Z) : handler unit :=
  fun '(cfg, w) =>
    (tt, ({| fileserverHits := Int32.Add (fileserverHits cfg) delta |}, w)).

Definition fileserverHits_Store (v : Z) : handler unit :=
  fun '(cfg, w) => (tt, ({| fileserverHits := v |}, w)).

Definition fileserverHits_Load : handler Z :=
  fun '(cfg, w) => (fileserverHits cfg, (cfg, w)).

(** The verb [%d] of [fmt] on an integer. *)
Definition fmt_d (v : Z) : string :=
  DecimalString.NilZero.string_of_int (Z.to_int v).

Definition middlewareMetricsInc (next : http.Request -> handler unit)
  (r : http.Request) : handler unit :=
  fileserverHits_Add 1 ;;
  next r.

Definition metricsHandler (r : http.Request) : handler unit :=
  if negb (String.eqb (http.Method r) http.MethodGet) then
    WriteHeader http.StatusMethodNotAllowed
  else
    Header_Set "Content-Type" "text/plain; charset=utf-8" ;;
    WriteHeader http.StatusOK ;;
    hits ← fileserverHits_Load;
    Write (Bytes ("Hits: " +:+ fmt_d hits)).

Definition resetHandler (r : http.Request) : handler unit :=
  if negb (String.eqb (http.Method r) http.MethodPost) then
    WriteHeader http.StatusMethodNotAllowed
  else
    fileserverHits_Store 0 ;;
    WriteHeader http.StatusOK.

Definition healthzHandler (r : http.Request) : handler unit :=
  if negb (String.eqb (http.Method r) http.MethodGet) then
    WriteHeader http.StatusMethodNotAllowed
  else
    Header_Set "Content-Type" "text/plain; charset=utf-8" ;;
    WriteHeader http.StatusOK ;;
    Write (Bytes "OK").

Definition serve (h : http.Request -> handler unit) (cfg : apiConfig)
  (r : http.Request) : apiConfig * ResponseWriter :=
  snd (h r (cfg, newResponseWriter)).

Fixpoint serveAll (h : http.Request -> handler unit) (rs : list http.Request)
    (cfg : apiConfig) : apiConfig :=
  match rs with
  | [] => cfg
  | r :: rs' => serveAll h rs' (fst (serve h cfg r))
  end.

Definition leavesConfig (next : http.Request -> handler unit) : Prop :=
  forall r st, fst (snd (next r st)) = fst st.

Definition sample_fileServer (r : http.Request) : handler unit :=
  WriteHeader 404 ;;
  Write (Bytes "404 page not found").

End Earlier.

(** The responses the handlers share. *)
Definition methodNotAllowed : ResponseWriter :=
  {| header := ∅; status := Some http.StatusMethodNotAllowed; body := [] |}.

Definition jsonWritten (code : Z) (v : written) : ResponseWriter :=
  {| header := {["Content-Type" := "application/json"]};
     status := Some code; body := [v] |}.

Definition userResponse_of (user : database.User) : userResponse :=
  {| userResponse_ID := database.User_ID user;
     userResponse_CreatedAt := database.User_CreatedAt user;
     userResponse_UpdatedAt := database.User_UpdatedAt user;
     userResponse_Email := database.User_Email user |}.

Definition chirpResponse_of (chirp : database.Chirp) : chirpResponse :=
  {| chirpResponse_ID := database.Chirp_ID chirp;
     chirpResponse_CreatedAt := database.Chirp_CreatedAt chirp;
     chirpResponse_UpdatedAt := database.Chirp_UpdatedAt chirp;
     chirpResponse_Body := database.Chirp_Body chirp;
     chirpResponse_UserID := database.Chirp_UserID chirp |}.

(** * Properties *)

(** ** Running a handler *)

Ltac run_handler :=
  unfold serve;
  cbv [mbind mret handler_bind handler_ret WriteHeader Header_Set Write
       fileserverHits_Add fileserverHits_Store fileserverHits_Load
       cfg_platform cfg_db newResponseWriter];
  cbn.

Lemma method_is_POST r :
  http.Method r = http.MethodPost ->
  negb (String.eqb (http.Method r) http.MethodPost) = false.
Proof. intros ->. reflexivity. Qed.

Lemma method_not_POST r :
  http.Method r <> http.MethodPost ->
  negb (String.eqb (http.Method r) http.MethodPost) = true.
Proof. intros Hne. by destruct (String.eqb_spec (http.Method r) http.MethodPost). Qed.

(** ** Bytes and text *)

Lemma String_length_app (s1 s2 : string) :
  String.length (s1 +:+ s2) = (String.length s1 + String.length s2)%nat.
Proof. induction s1 as [|c s1 IH]; simpl; [done|]. by rewrite IH. Qed.

Lemma String_app_cons c (s1 s2 : string) :
  String c s1 +:+ s2 = String c (s1 +:+ s2).
Proof. reflexivity. Qed.

Lemma byteZ_range c : 0 <= byteZ c < 256.
Proof.
  unfold byteZ. pose proof (N_ascii_bounded c). lia.
Qed.

Lemma byteZ_Zbyte z : byteZ (Zbyte z) = z mod 256.
Proof.
  unfold byteZ, Zbyte.
  pose proof (Z.mod_pos_bound z 256 eq_refl) as Hz.
  rewrite N_ascii_embedding by lia. lia.
Qed.

Lemma Zbyte_byteZ c : Zbyte (byteZ c) = c.
Proof.
  unfold Zbyte. pose proof (byteZ_range c) as Hc.
  rewrite Z.mod_small by done. unfold byteZ.
  rewrite N2Z.id. apply ascii_N_embedding.
Qed.

Lemma high_bit_byte z : Z.testbit z 7 = true -> 0x80 <= byteZ (Zbyte z).
Proof.
  intros Hbit. rewrite byteZ_Zbyte.
  pose proof (Z.mod_pos_bound z 256 eq_refl) as Hz.
  destruct (Z.lt_ge_cases (z mod 256) 0x80) as [Hlt|]; [|done].
  exfalso.
  assert (Z.testbit (z mod 2 ^ 8) 7 = true) as Hm
      by (rewrite Z.mod_pow2_bits_low by lia; done).
  change (2 ^ 8) with 256 in Hm.
  rewrite <- (Z.mod_small (z mod 256) (2 ^ 7)) in Hm by (change (2 ^ 7) with 128; lia).
  rewrite Z.mod_pow2_bits_high in Hm by lia. done.
Qed.

Lemma lor_high_bit t z : Z.testbit t 7 = true -> 0x80 <= byteZ (Zbyte (Z.lor t z)).
Proof. intros Ht. apply high_bit_byte. by rewrite Z.lor_spec, Ht. Qed.

Lemma asciiCount_app s1 s2 :
  asciiCount (s1 +:+ s2) = (asciiCount s1 + asciiCount s2)%nat.
Proof.
  induction s1 as [|c s1 IH]; [done|].
  rewrite String_app_cons. cbn [asciiCount]. rewrite IH. lia.
Qed.

Lemma asciiCount_high z s :
  0x80 <= byteZ (Zbyte z) -> asciiCount (String (Zbyte z) s) = asciiCount s.
Proof.
  intros Hz. cbn [asciiCount]. unfold utf8.RuneSelf.
  destruct (Z.ltb_spec (byteZ (Zbyte z)) 0x80); [lia|done].
Qed.

(** ** utf8.AppendRune *)

Lemma AppendRune_not_empty r : utf8.AppendRune r <> "".
Proof.
  unfold utf8.AppendRune, utf8.encode3.
  repeat match goal with |- context [if ?b then _ else _] => destruct b end; done.
Qed.

Lemma AppendRune_asciiCount r : (asciiCount (utf8.AppendRune r) <= 1)%nat.
Proof.
  unfold utf8.AppendRune, utf8.encode3.
  repeat match goal with |- context [if ?b then _ else _] => destruct b end;
    rewrite ?asciiCount_high by (by apply lor_high_bit); cbn; try lia.
  destruct (_ <? _); lia.
Qed.

Lemma AppendRune_ascii r :
  0 <= r <= utf8.rune1Max -> utf8.AppendRune r = String (Zbyte r) "".
Proof.
  unfold utf8.rune1Max. intros Hr. unfold utf8.AppendRune.
  rewrite Z.mod_small by lia.
  destruct (Z.leb_spec r utf8.rune1Max); [done|]. unfold utf8.rune1Max in *. lia.
Qed.

(** ** utf8.DecodeRuneInString *)

Lemma at_nonneg s i : 0 <= utf8.at_ s i.
Proof.
  unfold utf8.at_. destruct (String.get i s); [apply byteZ_range|done].
Qed.

(** The second byte of a rune of several bytes is not ASCII. *)
Lemma first_accept_lo b :
  (utf8.as_ <=? utf8.first b) = false ->
  0x80 <= fst (utf8.acceptRanges (Z.shiftr (utf8.first b) 4)).
Proof.
  unfold utf8.first.
  repeat match goal with |- context [if ?c then _ else _] => destruct c end;
    cbn; done.
Qed.

Ltac decode_cases :=
  unfold utf8.DecodeRuneInString; cbv zeta;
  repeat match goal with
         | |- context [if ?b then (_, _) else _] => destruct b eqn:?
         end.

Lemma Decode_width_pos s : s <> "" -> (1 <= snd (utf8.DecodeRuneInString s))%nat.
Proof.
  intros Hs. decode_cases; cbn [snd]; try lia.
  destruct s; [done|].
  match goal with H : (_ <? 1) = true |- _ => apply Z.ltb_lt in H; cbn in H; lia end.
Qed.

Lemma Decode_rune_nonneg s : 0 <= fst (utf8.DecodeRuneInString s).
Proof.
  decode_cases; cbn [fst]; try done;
    repeat first
      [ apply Z.lor_nonneg; split
      | apply Z.shiftl_nonneg
      | apply Z.land_nonneg; left; first [apply at_nonneg | done] ].
Qed.

Lemma Decode_ascii c s :
  byteZ c < utf8.RuneSelf -> utf8.DecodeRuneInString (String c s) = (byteZ c, 1%nat).
Proof.
  unfold utf8.RuneSelf. intros Hc. unfold utf8.DecodeRuneInString. cbv zeta.
  destruct (Z.ltb_spec (Z.of_nat (String.length (String c s))) 1) as [Hn|_];
    [cbn in Hn; lia|].
  change (utf8.at_ (String c s) 0) with (byteZ c).
  unfold utf8.first. destruct (Z.ltb_spec (byteZ c) 0x80); [|lia].
  cbn. by rewrite Z.land_m1_r, Z.lor_0_r.
Qed.

Lemma Decode_continuation s i :
  (1 <= i < snd (utf8.DecodeRuneInString s))%nat -> 0x80 <= utf8.at_ s i.
Proof.
  pose proof (first_accept_lo (utf8.at_ s 0)) as Hlo.
  decode_cases; cbn [snd]; intros Hi; try lia;
    specialize (Hlo ltac:(done));
    repeat match goal with
           | H : _ || _ = false |- _ => apply orb_false_iff in H as [? ?]
           | H : (_ <? _) = false |- _ => apply Z.ltb_ge in H
           end;
    unfold utf8.locb in *.
  - assert (i = 1%nat) as -> by lia. lia.
  - assert (i = 1 \/ i = 2)%nat as [-> | ->] by lia; lia.
  - assert (i = 1 \/ i = 2 \/ i = 3)%nat as [-> | [-> | ->]] by lia; lia.
Qed.

(** ** strings.Map *)

Lemma sliceFrom_length n s :
  String.length (sliceFrom n s) = (String.length s - n)%nat.
Proof.
  revert s. induction n as [|n IH]; intros [|c s]; cbn; done.
Qed.

Lemma sliceFrom_app n x z :
  (n <= String.length x)%nat ->
  sliceFrom n (x +:+ z) = sliceFrom n x +:+ z.
Proof.
  revert x. induction n as [|n IH]; intros [|c x] Hn; simpl in *; try done; try lia.
  apply IH. lia.
Qed.

Lemma at_app_cons x c y : utf8.at_ (x +:+ String c y) (String.length x) = byteZ c.
Proof.
  unfold utf8.at_. induction x as [|b x IH]; [done|].
  rewrite String_app_cons. exact IH.
Qed.

Lemma String_app_assoc (s1 s2 s3 : string) :
  (s1 +:+ s2) +:+ s3 = s1 +:+ s2 +:+ s3.
Proof. induction s1 as [|c s1 IH]; [done|]. rewrite !String_app_cons. by f_equal. Qed.

Lemma String_app_empty_r (s : string) : s +:+ "" = s.
Proof. induction s as [|c s IH]; [done|]. rewrite String_app_cons. by f_equal. Qed.

Lemma String_app_not_empty_l (s1 s2 : string) : s1 <> "" -> s1 +:+ s2 <> "".
Proof. by destruct s1. Qed.

(** ** utf8.RuneCountInString *)

Lemma RuneCount_loop_empty fuel : utf8.RuneCount_loop fuel "" = 0%nat.
Proof. by destruct fuel. Qed.

Lemma RuneCount_loop_step fuel s :
  s <> "" ->
  utf8.RuneCount_loop (S fuel) s
  = S (utf8.RuneCount_loop fuel (sliceFrom (snd (utf8.DecodeRuneInString s)) s)).
Proof. intros Hs. by destruct s. Qed.

(** The fuel [RuneCountInString] gives is enough: more changes nothing. *)
Lemma RuneCount_loop_fuel n m s :
  (String.length s <= n)%nat -> (String.length s <= m)%nat ->
  utf8.RuneCount_loop n s = utf8.RuneCount_loop m s.
Proof.
  revert m s. induction n as [|n IH]; intros m s Hn Hm.
  - destruct s; [|cbn in Hn; lia]. by rewrite !RuneCount_loop_empty.
  - destruct (decide (s = "")) as [->|Hs]; [by rewrite !RuneCount_loop_empty|].
    destruct m as [|m]; [destruct s; [done|cbn in Hm; lia]|].
    rewrite !RuneCount_loop_step by done. f_equal.
    pose proof (Decode_width_pos s Hs).
    apply IH; rewrite sliceFrom_length; lia.
Qed.

Lemma RuneCount_step s :
  s <> "" ->
  utf8.RuneCountInString s
  = S (utf8.RuneCountInString (sliceFrom (snd (utf8.DecodeRuneInString s)) s)).
Proof.
  intros Hs. unfold utf8.RuneCountInString.
  destruct s as [|c s]; [done|]. cbn [String.length].
  rewrite RuneCount_loop_step by done. f_equal.
  apply RuneCount_loop_fuel; [|done].
  pose proof (Decode_width_pos (String c s) Hs).
  rewrite sliceFrom_length. cbn [String.length]. lia.
Qed.

(** A text has at most as many characters as bytes: what is over 140
    characters is over 140 bytes, and what is within 140 bytes is within
    140 characters. *)
Lemma RuneCount_le_length s :
  (utf8.RuneCountInString s <= String.length s)%nat.
Proof.
  unfold utf8.RuneCountInString. generalize (String.length s). intros n.
  revert s. induction n as [|n IH]; intros s; [done|].
  destruct s as [|c s]; [cbn; lia|].
  rewrite RuneCount_loop_step by done.
  specialize (IH (sliceFrom (snd (utf8.DecodeRuneInString (String c s)))
                            (String c s))).
  lia.
Qed.

Section MapFacts.
Variable mapping : Z -> Z.

Lemma Map_loop_empty fuel : strings.Map_loop fuel mapping "" = "".
Proof. by destruct fuel. Qed.

Lemma Map_loop_step fuel s :
  s <> "" ->
  strings.Map_loop (S fuel) mapping s
  = mapped mapping s +:+ strings.Map_loop fuel mapping
                   (sliceFrom (snd (utf8.DecodeRuneInString s)) s).
Proof.
  intros Hs. destruct s as [|c s]; [done|]. cbn [strings.Map_loop].
  unfold mapped. by destruct (utf8.DecodeRuneInString (String c s)).
Qed.

(** The fuel [Map] gives is enough: more changes nothing. *)
Lemma Map_loop_fuel n m s :
  (String.length s <= n)%nat -> (String.length s <= m)%nat ->
  strings.Map_loop n mapping s = strings.Map_loop m mapping s.
Proof.
  revert m s. induction n as [|n IH]; intros m s Hn Hm.
  - destruct s; [|cbn in Hn; lia]. by rewrite !Map_loop_empty.
  - destruct (decide (s = "")) as [->|Hs]; [by rewrite !Map_loop_empty|].
    destruct m as [|m]; [destruct s; [done|cbn in Hm; lia]|].
    rewrite !Map_loop_step by done. f_equal.
    pose proof (Decode_width_pos s Hs).
    apply IH; rewrite sliceFrom_length; lia.
Qed.

Lemma Map_step s :
  s <> "" ->
  strings.Map mapping s
  = mapped mapping s +:+ strings.Map mapping
                   (sliceFrom (snd (utf8.DecodeRuneInString s)) s).
Proof.
  intros Hs. unfold strings.Map.
  destruct s as [|c s]; [done|]. cbn [String.length].
  rewrite Map_loop_step by done. f_equal.
  apply Map_loop_fuel; [|done].
  pose proof (Decode_width_pos (String c s) Hs).
  rewrite sliceFrom_length. cbn [String.length]. lia.
Qed.

Lemma Map_ascii_cons c s :
  byteZ c < utf8.RuneSelf ->
  strings.Map mapping (String c s)
  = (if 0 <=? mapping (byteZ c) then utf8.AppendRune (mapping (byteZ c)) else "")
      +:+ strings.Map mapping s.
Proof.
  intros Hc. rewrite Map_step by done. unfold mapped.
  by rewrite Decode_ascii.
Qed.

Lemma mapped_asciiCount s : (asciiCount (mapped mapping s) <= 1)%nat.
Proof.
  unfold mapped. cbv zeta. destruct (0 <=? _); [apply AppendRune_asciiCount|cbn; lia].
Qed.

(** An ASCII byte of the result comes from a rune of the argument. *)
Lemma Map_asciiCount s :
  (asciiCount (strings.Map mapping s) <= String.length s)%nat.
Proof.
  remember (String.length s) as n eqn:Hn. revert s Hn.
  induction n as [n IH] using lt_wf_ind. intros s ->.
  destruct (decide (s = "")) as [->|Hs]; [done|].
  rewrite Map_step by done. rewrite asciiCount_app.
  pose proof (mapped_asciiCount s). pose proof (Decode_width_pos s Hs).
  assert (String.length s <> 0%nat) by (by destruct s).
  specialize (IH (String.length (sliceFrom (snd (utf8.DecodeRuneInString s)) s))).
  rewrite sliceFrom_length in IH.
  specialize (IH ltac:(lia) _ ltac:(by rewrite sliceFrom_length)). lia.
Qed.

Hypothesis mapping_nonneg : forall r, 0 <= r -> 0 <= mapping r.

Lemma mapped_not_empty s : mapped mapping s <> "".
Proof.
  unfold mapped. cbv zeta.
  pose proof (mapping_nonneg _ (Decode_rune_nonneg s)) as Hr.
  destruct (Z.leb_spec 0 (mapping (fst (utf8.DecodeRuneInString s)))); [|lia].
  apply AppendRune_not_empty.
Qed.

Lemma Map_not_empty s : s <> "" -> strings.Map mapping s <> "".
Proof.
  intros Hs. rewrite Map_step by done.
  apply String_app_not_empty_l, mapped_not_empty.
Qed.

(** The runes before an ASCII byte are mapped on their own. *)
Lemma Map_before_ascii x c y :
  byteZ c < utf8.RuneSelf ->
  exists ox,
    strings.Map mapping (x +:+ String c y) = ox +:+ strings.Map mapping (String c y)
    /\ (x <> "" -> ox <> "").
Proof.
  intros Hc. remember (String.length x) as n eqn:Hn. revert x Hn.
  induction n as [n IH] using lt_wf_ind. intros x ->.
  destruct (decide (x = "")) as [->|Hx]; [by exists ""|].
  set (s := x +:+ String c y).
  assert (s <> "") as Hs by (by destruct x).
  pose proof (Decode_width_pos s Hs) as Hpos.
  assert (String.length x <> 0%nat) as Hlen by (by destruct x).
  assert (snd (utf8.DecodeRuneInString s) <= String.length x)%nat as Hw.
  { destruct (Nat.le_gt_cases (snd (utf8.DecodeRuneInString s)) (String.length x))
      as [|Hgt]; [done|].
    pose proof (Decode_continuation s (String.length x) ltac:(lia)) as Hcont.
    unfold s in Hcont. rewrite at_app_cons in Hcont.
    unfold utf8.RuneSelf in Hc. lia. }
  destruct (IH (String.length (sliceFrom (snd (utf8.DecodeRuneInString s)) x))
              ltac:(rewrite sliceFrom_length; lia) _ eq_refl) as (ox & Hox & _).
  exists (mapped mapping s +:+ ox). split.
  - rewrite Map_step by done. unfold s at 3. rewrite sliceFrom_app by done.
    rewrite Hox. by rewrite String_app_assoc.
  - intros _. apply String_app_not_empty_l, mapped_not_empty.
Qed.

End MapFacts.

(** ** strings.ToLower *)

Lemma isASCII_cons c s :
  strings.isASCII (String c s) = (byteZ c <? utf8.RuneSelf) && strings.isASCII s.
Proof. reflexivity. Qed.

Lemma isASCII_app s1 s2 :
  strings.isASCII (s1 +:+ s2) = strings.isASCII s1 && strings.isASCII s2.
Proof.
  induction s1 as [|c s1 IH]; [done|].
  rewrite String_app_cons, !isASCII_cons, IH. by rewrite andb_assoc.
Qed.

Lemma lowerASCII_app s1 s2 :
  strings.lowerASCII (s1 +:+ s2) = strings.lowerASCII s1 +:+ strings.lowerASCII s2.
Proof.
  induction s1 as [|c s1 IH]; [done|].
  rewrite String_app_cons. cbn [strings.lowerASCII].
  by rewrite IH, String_app_cons.
Qed.

Lemma lowerASCII_length s : String.length (strings.lowerASCII s) = String.length s.
Proof. induction s as [|c s IH]; [done|]. cbn. by rewrite IH. Qed.

Lemma lowerASCII_no_upper s : strings.hasUpper s = false -> strings.lowerASCII s = s.
Proof.
  induction s as [|c s IH]; [done|].
  change (strings.hasUpper (String c s))
    with (strings.isUpperByte c || strings.hasUpper s).
  intros [Hc Hs]%orb_false_iff. cbn [strings.lowerASCII].
  by rewrite Hc, IH.
Qed.

Section ToLowerFacts.
Variable To_LowerCase : Z -> Z.

Lemma ToLower_ascii s :
  strings.isASCII s = true ->
  strings.ToLower To_LowerCase s = strings.lowerASCII s.
Proof.
  intros Hs. unfold strings.ToLower. rewrite Hs.
  destruct (strings.hasUpper s) eqn:Hu; [done|].
  cbn [negb]. by rewrite lowerASCII_no_upper.
Qed.

Lemma unicode_ToLower_ascii c :
  byteZ c < utf8.RuneSelf ->
  unicode.ToLower To_LowerCase (byteZ c)
  = if strings.isUpperByte c then byteZ c + (byteZ "a" - byteZ "A") else byteZ c.
Proof.
  unfold utf8.RuneSelf. intros Hc. unfold unicode.ToLower, unicode.MaxASCII.
  destruct (Z.leb_spec (byteZ c) 0x7F); [|lia]. reflexivity.
Qed.

Lemma Map_ToLower_ascii_cons c s :
  byteZ c < utf8.RuneSelf ->
  strings.Map (unicode.ToLower To_LowerCase) (String c s)
  = strings.lowerASCII (String c "")
      +:+ strings.Map (unicode.ToLower To_LowerCase) s.
Proof.
  intros Hc. rewrite Map_ascii_cons by done.
  rewrite unicode_ToLower_ascii by done.
  pose proof (byteZ_range c) as Hr. unfold utf8.RuneSelf in Hc.
  cbn [strings.lowerASCII]. unfold strings.isUpperByte.
  destruct ((byteZ "A" <=? byteZ c) && (byteZ c <=? byteZ "Z")) eqn:Hup.
  - apply andb_true_iff in Hup as [HA%Z.leb_le HZ%Z.leb_le].
    change (byteZ "A") with 65 in *. change (byteZ "Z") with 90 in *.
    change (byteZ "a") with 97.
    destruct (Z.leb_spec 0 (byteZ c + (97 - 65))); [|lia].
    rewrite AppendRune_ascii by (unfold utf8.rune1Max; lia). done.
  - destruct (Z.leb_spec 0 (byteZ c)); [|lia].
    rewrite AppendRune_ascii by (unfold utf8.rune1Max; lia).
    by rewrite Zbyte_byteZ.
Qed.

Lemma Map_ToLower_ascii_app w s :
  strings.isASCII w = true ->
  strings.Map (unicode.ToLower To_LowerCase) (w +:+ s)
  = strings.lowerASCII w +:+ strings.Map (unicode.ToLower To_LowerCase) s.
Proof.
  induction w as [|c w IH]; [done|].
  rewrite isASCII_cons. intros [Hc%Z.ltb_lt Hw]%andb_true_iff.
  rewrite String_app_cons, Map_ToLower_ascii_cons by done.
  rewrite IH by done.
  change (strings.lowerASCII (String c w))
    with (strings.lowerASCII (String c "") +:+ strings.lowerASCII w).
  by rewrite String_app_assoc.
Qed.

(** An ASCII byte of the result comes from a byte of the argument. *)
Lemma ToLower_asciiCount s :
  (asciiCount (strings.ToLower To_LowerCase s) <= String.length s)%nat.
Proof.
  destruct (strings.isASCII s) eqn:Hs.
  - rewrite ToLower_ascii by done. rewrite <- (lowerASCII_length s).
    generalize (strings.lowerASCII s). intros t.
    induction t as [|c t IH]; cbn; [done|]. destruct (_ <? _); lia.
  - unfold strings.ToLower. rewrite Hs. apply Map_asciiCount.
Qed.

Hypothesis To_LowerCase_nonneg : forall r, 0 <= r -> 0 <= To_LowerCase r.

Lemma unicode_ToLower_nonneg r : 0 <= r -> 0 <= unicode.ToLower To_LowerCase r.
Proof.
  intros Hr. unfold unicode.ToLower.
  destruct (r <=? unicode.MaxASCII); [|by apply To_LowerCase_nonneg].
  destruct (_ && _); [|done]. change (byteZ "a" - byteZ "A") with 32. lia.
Qed.

(** Lower case letters inside a text stay where they are, and what is
    around them does not vanish. *)
Lemma ToLower_around x w y :
  strings.isASCII w = true -> w <> "" ->
  exists ox oy,
    strings.ToLower To_LowerCase (x +:+ w +:+ y) = ox +:+ strings.lowerASCII w +:+ oy
    /\ (x <> "" -> ox <> "") /\ (y <> "" -> oy <> "").
Proof.
  intros Hw Hne. destruct (strings.isASCII (x +:+ w +:+ y)) eqn:Hs.
  - exists (strings.lowerASCII x), (strings.lowerASCII y).
    rewrite ToLower_ascii by done. rewrite !lowerASCII_app.
    split; [done|]. split; intros H; by destruct x, y.
  - unfold strings.ToLower. rewrite Hs.
    destruct w as [|c w]; [done|].
    rewrite isASCII_cons in Hw. apply andb_true_iff in Hw as [Hc%Z.ltb_lt Hw].
    rewrite String_app_cons.
    destruct (Map_before_ascii _ unicode_ToLower_nonneg x c (w +:+ y) Hc)
      as (ox & Hox & Hx).
    exists ox, (strings.Map (unicode.ToLower To_LowerCase) y).
    rewrite Hox. split; [|split; [done|]].
    + rewrite <- String_app_cons.
      rewrite Map_ToLower_ascii_app; [done|].
      rewrite isASCII_cons. apply andb_true_iff. split; [by apply Z.ltb_lt|done].
    + intros Hy. by apply Map_not_empty; [apply unicode_ToLower_nonneg|].
Qed.

End ToLowerFacts.

(** ** The denylist *)

Lemma prefix_app w s : String.prefix w (w +:+ s) = true.
Proof.
  induction w as [|c w IH]; [by destruct s|].
  rewrite String_app_cons. cbn. by destruct (ascii_dec c c).
Qed.

Lemma isInfix_app a w b : isInfix w (a +:+ w +:+ b) = true.
Proof.
  induction a as [|c a IH].
  - change ("" +:+ w +:+ b) with (w +:+ b).
    destruct (w +:+ b) eqn:E; cbn [isInfix]; rewrite <- E, prefix_app; done.
  - rewrite String_app_cons. cbn [isInfix]. rewrite IH. apply orb_true_r.
Qed.

Lemma elem_of_profaneWords w :
  w ∈ profaneWords -> w = "kerfuffle" \/ w = "sharbert" \/ w = "fornax".
Proof.
  unfold profaneWords. rewrite !elem_of_cons, elem_of_nil. tauto.
Qed.

Lemma profane_lower w :
  w ∈ profaneWords ->
  strings.isASCII w = true /\ strings.lowerASCII w = w /\ w <> ""
  /\ asciiCount w = String.length w /\ (6 <= String.length w)%nat.
Proof.
  intros [-> | [-> | ->]]%elem_of_profaneWords; vm_compute; repeat split; try done; lia.
Qed.

(** No denylist word lies inside another, or inside itself with something
    around it. *)
Lemma profane_not_inside a w b w' :
  w ∈ profaneWords -> w' ∈ profaneWords -> w' = a +:+ w +:+ b ->
  a = "" /\ b = "".
Proof.
  intros Hw Hw' Heq.
  pose proof (isInfix_app a w b) as Hin. rewrite <- Heq in Hin.
  apply (f_equal String.length) in Heq. rewrite !String_length_app in Heq.
  apply elem_of_profaneWords in Hw as [-> | [-> | ->]];
    apply elem_of_profaneWords in Hw' as [-> | [-> | ->]];
    try (vm_compute in Hin; discriminate Hin);
    cbn in Heq; destruct a, b; cbn in Heq; try done; lia.
Qed.


(** ** Split and Join *)

Lemma Split_not_nil s sep : strings.Split s sep <> [].
Proof.
  destruct s as [|c s]; simpl; [done|].
  destruct (Ascii.eqb c sep); [done|].
  by destruct (strings.Split s sep).
Qed.

Lemma Join_cons_byte c w ws sep :
  strings.Join (String c w :: ws) sep = String c (strings.Join (w :: ws) sep).
Proof. by destruct ws. Qed.

Lemma Join_cons w ws sep :
  ws <> [] -> strings.Join (w :: ws) sep = w +:+ sep +:+ strings.Join ws sep.
Proof. by destruct ws. Qed.

Lemma Join_Split s sep :
  strings.Join (strings.Split s sep) (String sep EmptyString) = s.
Proof.
  induction s as [|c s IH]; simpl; [done|].
  destruct (Ascii.eqb_spec c sep) as [->|Hne].
  - rewrite Join_cons by apply Split_not_nil. simpl. by rewrite IH.
  - pose proof (Split_not_nil s sep) as Hnil.
    destruct (strings.Split s sep) as [|w ws]; [done|].
    rewrite Join_cons_byte. by rewrite IH.
Qed.

Lemma Split_no_sep w sep :
  hasByte sep w = false -> strings.Split w sep = [w].
Proof.
  induction w as [|c w IH]; simpl; [done|].
  intros [Hc Hw]%orb_false_iff. rewrite Hc. by rewrite IH.
Qed.

Lemma Split_app_sep w s sep :
  hasByte sep w = false ->
  strings.Split (w +:+ String sep s) sep = w :: strings.Split s sep.
Proof.
  induction w as [|c w IH]; simpl.
  - intros _. by rewrite Ascii.eqb_refl.
  - intros [Hc Hw]%orb_false_iff. rewrite Hc. by rewrite IH.
Qed.

Lemma Split_Join ws sep :
  ws <> [] -> Forall (fun w => hasByte sep w = false) ws ->
  strings.Split (strings.Join ws (String sep EmptyString)) sep = ws.
Proof.
  induction ws as [|w ws IH]; [done|].
  intros _ Hall. apply Forall_cons in Hall as [Hw Hws].
  destruct ws as [|w' ws]; [by apply Split_no_sep|].
  rewrite Join_cons by done.
  change (String sep "" +:+ ?s) with (String sep s).
  rewrite Split_app_sep by done. f_equal. by apply IH.
Qed.

Lemma Split_pieces s sep :
  Forall (fun w => hasByte sep w = false) (strings.Split s sep).
Proof.
  induction s as [|c s IH]; simpl; [by repeat constructor|].
  destruct (Ascii.eqb c sep) eqn:Hc; [by constructor|].
  destruct (strings.Split s sep) as [|w ws]; [repeat constructor; simpl; by rewrite Hc|].
  apply Forall_cons in IH as [Hw Hws]. constructor; [|done].
  simpl. by rewrite Hc.
Qed.

Lemma Join_length_le (f : string -> string) ws sep :
  Forall (fun w => (String.length (f w) <= String.length w)%nat) ws ->
  (String.length (strings.Join (map f ws) sep)
   <= String.length (strings.Join ws sep))%nat.
Proof.
  induction ws as [|w ws IH]; [done|].
  intros [Hw Hws]%Forall_cons. specialize (IH Hws).
  destruct ws as [|w' ws]; [done|].
  change (map f (w :: w' :: ws)) with (f w :: f w' :: map f ws).
  rewrite (Join_cons w), (Join_cons (f w)) by done. rewrite !String_length_app.
  change (map f (w' :: ws)) with (f w' :: map f ws) in IH. lia.
Qed.

(** ** The two loops of the cleaning transform *)

Section CleaningFacts.
Variable To_LowerCase : Z -> Z.

Lemma maskProfane_eq wordLower profanes i words :
  maskProfane wordLower profanes i words
  = if bool_decide (wordLower ∈ profanes) then <[i := "****"]> words else words.
Proof.
  induction profanes as [|p ps IH]; simpl; [done|].
  destruct (String.eqb_spec wordLower p) as [->|Hne].
  - rewrite bool_decide_eq_true_2; [done|]. by left.
  - rewrite IH.
    rewrite (bool_decide_ext (wordLower ∈ ps) (wordLower ∈ p :: ps)); [done|].
    rewrite elem_of_cons. split; [by right|]. by intros [?|?].
Qed.

Lemma maskProfane_word word i words :
  words !! i = Some word ->
  maskProfane (strings.ToLower To_LowerCase word) profaneWords i words
  = <[i := maskWord To_LowerCase word]> words.
Proof.
  intros Hi. rewrite maskProfane_eq. unfold maskWord.
  case_bool_decide; [done|]. by rewrite list_insert_id.
Qed.

Lemma cleanLoop_eq n i words :
  (i + n)%nat = length words ->
  cleanLoop To_LowerCase n i words
  = take i words ++ map (maskWord To_LowerCase) (drop i words).
Proof.
  revert i words. induction n as [|n IH]; intros i words Hlen; cbn [cleanLoop].
  - rewrite drop_ge by lia. rewrite take_ge by lia. by rewrite app_nil_r.
  - destruct (lookup_lt_is_Some_2 words i) as [word Hword]; [lia|].
    rewrite Hword. rewrite (maskProfane_word _ _ _ Hword).
    rewrite IH by (rewrite length_insert; lia).
    rewrite (drop_S _ _ _ Hword). simpl.
    rewrite drop_insert_lt by lia.
    rewrite (take_S_r (<[i:=maskWord To_LowerCase word]> words) i
               (maskWord To_LowerCase word)).
    + rewrite take_insert_ge by lia. by rewrite <- app_assoc.
    + apply list_lookup_insert_eq. lia.
Qed.

Lemma cleanChirp_eq body :
  cleanChirp To_LowerCase body = cleanChirp_ref To_LowerCase body.
Proof.
  unfold cleanChirp, cleanChirp_ref. rewrite cleanLoop_eq by done.
  by rewrite take_0, drop_0.
Qed.

End CleaningFacts.

(** ** The cleaning transform *)

(** C2, as the code has it: the cleaning transform splits the text on single
    spaces, replaces every token whose lower-cased form is one of the three
    denylist words by "****", keeps every other token as it was written, and
    rejoins the tokens with single spaces. The lower-cased form serves the
    comparison only. *)
Theorem C2_clean_masks_tokens (To_LowerCase : Z -> Z) (body : string) :
  cleanChirp To_LowerCase body
  = strings.Join
      (map (fun tok =>
              if bool_decide (strings.ToLower To_LowerCase tok ∈ profaneWords)
              then "****" else tok)
           (strings.Split body " "))
      " ".
Proof. apply cleanChirp_eq. Qed.

(** C2, as the specification has it, fails: the tokens that are kept are not
    lower-cased. *)
Lemma C2_lowercase_counterexample :
  (String.length "Hello World" <= 140)%nat
  /\ cleanChirp noCase "Hello World" = "Hello World"
  /\ cleanChirp_spec noCase "Hello World" = "hello world"
  /\ cleanChirp noCase "Hello World"
     <> cleanChirp_spec noCase "Hello World".
Proof.
  split; [cbn; lia|]. split; [reflexivity|]. split; [reflexivity|].
  vm_compute. discriminate.
Qed.

(** C4: on a text of at most 140 bytes none of whose tokens is, lower-cased,
    a denylist word, the cleaning transform is the identity. *)
Theorem C4_clean_identity (To_LowerCase : Z -> Z) (body : string) :
  (String.length body <= 140)%nat ->
  Forall (fun tok => strings.ToLower To_LowerCase tok ∉ profaneWords)
         (strings.Split body " ") ->
  cleanChirp To_LowerCase body = body.
Proof.
  intros _ Hclean. rewrite cleanChirp_eq. unfold cleanChirp_ref.
  rewrite <- (Join_Split body " ") at 2. f_equal.
  induction Hclean as [|tok toks Htok _ IH]; [done|].
  cbn [map]. rewrite IH. f_equal.
  unfold maskWord. by rewrite bool_decide_eq_false_2.
Qed.

Lemma C4_clean_identity_witness :
  cleanChirp noCase "I hear Mastodon is better than Chirpy. sharbert!"
  = "I hear Mastodon is better than Chirpy. sharbert!".
Proof.
  apply (C4_clean_identity noCase).
  - vm_compute. lia.
  - apply (bool_decide_unpack _). vm_compute. exact I.
Defined.

Lemma maskWord_length To_LowerCase tok :
  (String.length (maskWord To_LowerCase tok) <= String.length tok)%nat.
Proof.
  unfold maskWord. case_bool_decide as Hp; [|done].
  pose proof (ToLower_asciiCount To_LowerCase tok) as Hc.
  destruct (profane_lower _ Hp) as (_ & _ & _ & Hcount & Hlen).
  rewrite Hcount in Hc. cbn. lia.
Qed.

Lemma cleanChirp_length To_LowerCase body :
  (String.length (cleanChirp To_LowerCase body) <= String.length body)%nat.
Proof.
  rewrite cleanChirp_eq. unfold cleanChirp_ref.
  rewrite <- (Join_Split body " ") at 2.
  apply Join_length_le, Forall_forall. intros tok _. apply maskWord_length.
Qed.

Lemma createChirp_keeps_bound To_LowerCase U env cfg r :
  Forall chirpBodyOK (database.chirps (db cfg)) ->
  Forall chirpBodyOK
    (database.chirps (db (fst (serve (createChirpHandler To_LowerCase U env) cfg r)))).
Proof.
  intros Hok. unfold serve, createChirpHandler.
  destruct (negb _); [done|].
  destruct (http.Body r) as [raw|]; [|done].
  destruct (U raw) as [req|]; [|done].
  destruct (Nat.ltb_spec 140 (String.length (chirpCreateRequest_Body req)))
    as [|Hlen]; [done|].
  run_handler. destruct (db_fails env); cbn; [done|].
  apply Forall_app. split; [done|]. constructor; [|done].
  unfold chirpBodyOK. cbn.
  pose proof (cleanChirp_length To_LowerCase (chirpCreateRequest_Body req)). lia.
Qed.

(** C5: for a chirp text the length check accepts (at most 140 bytes), the
    cleaning transform gives at most 140 bytes, and so at most 140
    characters; that cleaned text is the body of the chirp
    [createChirpHandler] stores, and a chirp table whose bodies are within
    the bound stays so. *)
Theorem C5_persisted_body_bound
    (To_LowerCase : Z -> Z)
    (Unmarshal_chirpCreateRequest : string -> option chirpCreateRequest)
    (env : Env) (cfg : apiConfig) (r : http.Request)
    (raw : string) (req : chirpCreateRequest) :
  http.Method r = http.MethodPost ->
  http.Body r = Some raw ->
  Unmarshal_chirpCreateRequest raw = Some req ->
  (String.length (chirpCreateRequest_Body req) <= 140)%nat ->
  let cleaned := cleanChirp To_LowerCase (chirpCreateRequest_Body req) in
  let cfg' := fst (serve (createChirpHandler To_LowerCase
                            Unmarshal_chirpCreateRequest env) cfg r) in
  (String.length cleaned <= 140)%nat
  /\ (utf8.RuneCountInString cleaned <= 140)%nat
  /\ (db_fails env = false ->
      database.chirps (db cfg')
      = database.chirps (db cfg)
          ++ [{| database.Chirp_ID := uuid_New env;
                 database.Chirp_CreatedAt := time_Now env;
                 database.Chirp_UpdatedAt := time_Now env;
                 database.Chirp_Body := cleaned;
                 database.Chirp_UserID := chirpCreateRequest_UserID req |}])
  /\ (Forall chirpBodyOK (database.chirps (db cfg)) ->
      Forall chirpBodyOK (database.chirps (db cfg'))).
Proof.
  intros Hm Hb Hreq Hlen cleaned cfg'.
  pose proof (cleanChirp_length To_LowerCase (chirpCreateRequest_Body req)).
  pose proof (RuneCount_le_length cleaned).
  split; [unfold cleaned; lia|]. split; [unfold cleaned in *; lia|]. split.
  - intros Hdb. unfold cfg', serve, createChirpHandler.
    apply Nat.ltb_ge in Hlen.
    rewrite (method_is_POST _ Hm), Hb, Hreq, Hlen. run_handler.
    by rewrite Hdb.
  - apply createChirp_keeps_bound.
Qed.

Lemma C5_persisted_body_bound_witness :
  let r := {| http.Method := "POST";
              http.Body := Some "I had a Sharbert of a day" |} in
  let cfg' := fst (serve (createChirpHandler noCase
                            sample_Unmarshal_chirpCreateRequest
                            (sample_env false)) (sample_cfg 0 "prod") r) in
  (String.length (cleanChirp noCase "I had a Sharbert of a day") <= 140)%nat
  /\ (utf8.RuneCountInString (cleanChirp noCase "I had a Sharbert of a day")
      <= 140)%nat
  /\ (false = false ->
      database.chirps (db cfg')
      = [{| database.Chirp_ID := "0b7a9d0e-8f0a-4c51-9d3c-5d2a4c8f1e11";
            database.Chirp_CreatedAt := 1700000000;
            database.Chirp_UpdatedAt := 1700000000;
            database.Chirp_Body := "I had a **** of a day";
            database.Chirp_UserID := "3fa85f64-5717-4562-b3fc-2c963f66afa6" |}])
  /\ (Forall chirpBodyOK [] -> Forall chirpBodyOK (database.chirps (db cfg'))).
Proof.
  refine (C5_persisted_body_bound noCase sample_Unmarshal_chirpCreateRequest
            (sample_env false) (sample_cfg 0 "prod")
            {| http.Method := "POST";
               http.Body := Some "I had a Sharbert of a day" |}
            "I had a Sharbert of a day"
            {| chirpCreateRequest_Body := "I had a Sharbert of a day";
               chirpCreateRequest_UserID := "3fa85f64-5717-4562-b3fc-2c963f66afa6" |}
            eq_refl eq_refl eq_refl _).
  vm_compute. lia.
Defined.

Lemma Split_cleanChirp To_LowerCase body :
  strings.Split (cleanChirp To_LowerCase body) " "
  = map (maskWord To_LowerCase) (strings.Split body " ").
Proof.
  rewrite cleanChirp_eq. unfold cleanChirp_ref. apply Split_Join.
  - pose proof (Split_not_nil body " "). by destruct (strings.Split body " ").
  - apply Forall_fmap. eapply Forall_impl; [apply Split_pieces|].
    intros tok Htok. unfold maskWord. cbn. by case_bool_decide.
Qed.

Lemma inside_not_profane To_LowerCase v x y :
  (forall r, 0 <= r -> 0 <= To_LowerCase r) ->
  strings.isASCII v = true -> strings.lowerASCII v ∈ profaneWords ->
  x +:+ y <> "" ->
  strings.ToLower To_LowerCase (x +:+ v +:+ y) ∉ profaneWords.
Proof.
  intros Hnn Hascii Hv Hxy Hin.
  assert (v <> "") as Hne.
  { intros ->. apply elem_of_profaneWords in Hv. by destruct Hv as [|[|]]. }
  destruct (ToLower_around To_LowerCase Hnn x v y Hascii Hne)
    as (ox & oy & Heq & Hx & Hy).
  destruct (profane_not_inside ox _ oy _ Hv Hin Heq) as [-> ->].
  apply Hxy. destruct x; [|by specialize (Hx ltac:(done))].
  destruct y; [done|]. by specialize (Hy ltac:(done)).
Qed.

(** C1: a token of the text, between single spaces or the ends of the text,
    whose lower-cased form is one of the three denylist words is replaced by
    "****"; so is, in particular, every spelling of a denylist word in upper
    and lower case ASCII letters. A token that holds a denylist word, in any
    such spelling, with something before or after it is left as it is. (The
    case table of Unicode is taken to map no rune to a negative number:
    [strings.Map] drops such runes.) *)
Theorem C1_whole_words_masked
    (To_LowerCase : Z -> Z) (body : string) (i : nat) (tok : string) :
  (forall r, 0 <= r -> 0 <= To_LowerCase r) ->
  strings.Split body " " !! i = Some tok ->
  (strings.ToLower To_LowerCase tok ∈ profaneWords ->
   strings.Split (cleanChirp To_LowerCase body) " " !! i = Some "****")
  /\ (strings.isASCII tok = true -> strings.lowerASCII tok ∈ profaneWords ->
      strings.Split (cleanChirp To_LowerCase body) " " !! i = Some "****")
  /\ (forall v x y,
         strings.isASCII v = true -> strings.lowerASCII v ∈ profaneWords ->
         tok = x +:+ v +:+ y -> x +:+ y <> "" ->
         strings.Split (cleanChirp To_LowerCase body) " " !! i = Some tok).
Proof.
  intros Hnn Htok. rewrite Split_cleanChirp, list_lookup_fmap, Htok. cbn.
  unfold maskWord. split; [|split].
  - intros Hp. by rewrite bool_decide_eq_true_2.
  - intros Hascii Hp. rewrite ToLower_ascii by done. by rewrite bool_decide_eq_true_2.
  - intros v x y Hascii Hv -> Hxy.
    by rewrite bool_decide_eq_false_2 by (by apply inside_not_profane).
Qed.

Lemma someCase_nonneg r : 0 <= r -> 0 <= someCase r.
Proof.
  intros Hr. unfold someCase.
  repeat match goal with |- context [if ?b then _ else _] => destruct b end; lia.
Qed.

Lemma C1_whole_words_masked_witness :
  strings.Split (cleanChirp someCase "such a KerFuffle today") " " !! 2%nat
  = Some "****".
Proof.
  apply (proj1 (C1_whole_words_masked someCase "such a KerFuffle today" 2
                  "KerFuffle" someCase_nonneg eq_refl)).
  apply (bool_decide_unpack _). vm_compute. exact I.
Defined.

(** ** The handlers *)

(** C3: a chirp body of more than 140 bytes, and so every body of more than
    140 characters, measured on the decoded text before any cleaning, is
    answered with status 400 and the error "Chirp is too long", whatever the
    body holds; the configuration, and with it the chirp table, is left as
    it was. Both [createChirpHandler] and [validateChirpHandler] do so. *)
Theorem C3_too_long_rejected
    (To_LowerCase : Z -> Z)
    (Unmarshal_chirpRequest : string -> option chirpRequest)
    (Unmarshal_chirpCreateRequest : string -> option chirpCreateRequest)
    (env : Env) (cfg : apiConfig) (r : http.Request) (raw : string) :
  http.Method r = http.MethodPost ->
  http.Body r = Some raw ->
  (forall req,
      Unmarshal_chirpCreateRequest raw = Some req ->
      (140 < String.length (chirpCreateRequest_Body req)
       \/ 140 < utf8.RuneCountInString (chirpCreateRequest_Body req))%nat ->
      serve (createChirpHandler To_LowerCase Unmarshal_chirpCreateRequest env) cfg r
      = (cfg, errorWritten http.StatusBadRequest "Chirp is too long"))
  /\
  (forall chirp,
      Unmarshal_chirpRequest raw = Some chirp ->
      (140 < String.length (chirpRequest_Body chirp)
       \/ 140 < utf8.RuneCountInString (chirpRequest_Body chirp))%nat ->
      serve (validateChirpHandler To_LowerCase Unmarshal_chirpRequest) cfg r
      = (cfg, errorWritten http.StatusBadRequest "Chirp is too long")).
Proof.
  intros Hm Hb. split.
  - intros req Hreq Hlen. unfold serve, createChirpHandler.
    rewrite (method_is_POST _ Hm), Hb, Hreq.
    pose proof (RuneCount_le_length (chirpCreateRequest_Body req)).
    assert ((140 <? String.length (chirpCreateRequest_Body req))%nat = true) as ->
        by (apply Nat.ltb_lt; lia).
    reflexivity.
  - intros chirp Hchirp Hlen. unfold serve, validateChirpHandler.
    rewrite (method_is_POST _ Hm), Hb, Hchirp.
    pose proof (RuneCount_le_length (chirpRequest_Body chirp)).
    assert ((140 <? String.length (chirpRequest_Body chirp))%nat = true) as ->
        by (apply Nat.ltb_lt; lia).
    reflexivity.
Qed.

Lemma C3_too_long_rejected_witness :
  let r := {| http.Method := "POST"; http.Body := Some (repeatByte 141 "a") |} in
  serve (createChirpHandler noCase sample_Unmarshal_chirpCreateRequest
           (sample_env false)) (sample_cfg 7 "dev") r
  = (sample_cfg 7 "dev", errorWritten 400 "Chirp is too long").
Proof.
  intros r.
  apply (proj1 (C3_too_long_rejected noCase sample_Unmarshal_chirpRequest
                  sample_Unmarshal_chirpCreateRequest (sample_env false)
                  (sample_cfg 7 "dev") r (repeatByte 141 "a")
                  eq_refl eq_refl)
               {| chirpCreateRequest_Body := repeatByte 141 "a";
                  chirpCreateRequest_UserID := "3fa85f64-5717-4562-b3fc-2c963f66afa6" |}
               eq_refl).
  left. vm_compute. lia.
Defined.

(** C6: outside dev mode a POST to the reset endpoint is answered with
    status 403 and the configuration is unchanged: the hit counter keeps its
    value and no user is deleted. *)
Theorem C6_reset_forbidden_outside_dev (env : Env) (cfg : apiConfig) (r : http.Request) :
  http.Method r = http.MethodPost ->
  platform cfg <> "dev" ->
  serve (resetHandler env) cfg r
  = (cfg, errorWritten http.StatusForbidden
            "Reset endpoint only available in dev mode").
Proof.
  intros Hm Hp. unfold serve, resetHandler.
  rewrite (method_is_POST _ Hm). run_handler.
  by destruct (String.eqb_spec (platform cfg) "dev").
Qed.

Lemma C6_reset_forbidden_outside_dev_witness :
  serve (resetHandler (sample_env false)) (sample_cfg 42 "prod")
        {| http.Method := "POST"; http.Body := Some "" |}
  = (sample_cfg 42 "prod",
     errorWritten 403 "Reset endpoint only available in dev mode").
Proof.
  apply (C6_reset_forbidden_outside_dev (sample_env false) (sample_cfg 42 "prod")
           {| http.Method := "POST"; http.Body := Some "" |} eq_refl).
  vm_compute. discriminate.
Defined.

(** C7: in dev mode, when [DeleteAllUsers] succeeds, a POST to the reset
    endpoint stores zero in the hit counter, empties the user table and
    answers with status 200. *)
Theorem C7_reset_in_dev (env : Env) (cfg : apiConfig) (r : http.Request) :
  http.Method r = http.MethodPost ->
  platform cfg = "dev" ->
  db_fails env = false ->
  let '(cfg', w) := serve (resetHandler env) cfg r in
  fileserverHits cfg' = 0
  /\ database.users (db cfg') = []
  /\ status w = Some http.StatusOK.
Proof.
  intros Hm Hp Hdb. unfold serve, resetHandler.
  rewrite (method_is_POST _ Hm). run_handler. rewrite Hp, Hdb. by cbn.
Qed.

Lemma C7_reset_in_dev_witness :
  let '(cfg', w) :=
    serve (resetHandler (sample_env false)) (sample_cfg 42 "dev")
          {| http.Method := "POST"; http.Body := Some "" |} in
  fileserverHits cfg' = 0
  /\ database.users (db cfg') = []
  /\ status w = Some 200.
Proof.
  exact (C7_reset_in_dev (sample_env false) (sample_cfg 42 "dev")
           {| http.Method := "POST"; http.Body := Some "" |}
           eq_refl eq_refl eq_refl).
Defined.

(** C10: in dev mode, when [DeleteAllUsers] fails, the reset endpoint
    answers with status 500 although the hit counter has already been stored
    to zero; the tables are as they were. *)
Theorem C10_reset_not_atomic (env : Env) (cfg : apiConfig) (r : http.Request) :
  http.Method r = http.MethodPost ->
  platform cfg = "dev" ->
  db_fails env = true ->
  serve (resetHandler env) cfg r
  = ({| fileserverHits := 0; db := db cfg; platform := platform cfg |},
     errorWritten http.StatusInternalServerError "Failed to delete users").
Proof.
  intros Hm Hp Hdb. unfold serve, resetHandler.
  rewrite (method_is_POST _ Hm). run_handler. rewrite Hp, Hdb. cbn. by rewrite Hp.
Qed.

Lemma C10_reset_not_atomic_witness :
  serve (resetHandler (sample_env true)) (sample_cfg 42 "dev")
        {| http.Method := "POST"; http.Body := Some "" |}
  = (sample_cfg 0 "dev", errorWritten 500 "Failed to delete users").
Proof.
  exact (C10_reset_not_atomic (sample_env true) (sample_cfg 42 "dev")
           {| http.Method := "POST"; http.Body := Some "" |}
           eq_refl eq_refl eq_refl).
Defined.

Section ErrorClasses.
Variable To_LowerCase : Z -> Z.
Variable Unmarshal_userRequest : string -> option userRequest.
Variable Unmarshal_chirpCreateRequest : string -> option chirpCreateRequest.
Variables (env : Env) (cfg : apiConfig) (r : http.Request).

Lemma createUser_failure f :
  userFailure Unmarshal_userRequest env r f ->
  snd (serve (createUserHandler Unmarshal_userRequest env) cfg r)
  = failureResponse "user" f.
Proof.
  unfold serve, createUserHandler. destruct f; cbn [userFailure].
  - intros Hm. by rewrite (method_not_POST _ Hm).
  - intros [Hm Hb]. by rewrite (method_is_POST _ Hm), Hb.
  - intros (Hm & raw & Hb & Hu). by rewrite (method_is_POST _ Hm), Hb, Hu.
  - intros [].
  - intros (Hm & (raw & req & Hb & Hu) & Hdb).
    rewrite (method_is_POST _ Hm), Hb, Hu. run_handler. by rewrite Hdb.
Qed.

Lemma createChirp_failure f :
  chirpFailure Unmarshal_chirpCreateRequest env r f ->
  snd (serve (createChirpHandler To_LowerCase
                Unmarshal_chirpCreateRequest env) cfg r)
  = failureResponse "chirp" f.
Proof.
  unfold serve, createChirpHandler. destruct f; cbn [chirpFailure].
  - intros Hm. by rewrite (method_not_POST _ Hm).
  - intros [Hm Hb]. by rewrite (method_is_POST _ Hm), Hb.
  - intros (Hm & raw & Hb & Hu). by rewrite (method_is_POST _ Hm), Hb, Hu.
  - intros (Hm & raw & req & Hb & Hu & Hlen%Nat.ltb_lt).
    by rewrite (method_is_POST _ Hm), Hb, Hu, Hlen.
  - intros (Hm & (raw & req & Hb & Hu & Hlen%Nat.ltb_ge) & Hdb).
    rewrite (method_is_POST _ Hm), Hb, Hu, Hlen. run_handler. by rewrite Hdb.
Qed.

Lemma createUser_error_cause :
  isError (snd (serve (createUserHandler Unmarshal_userRequest env) cfg r)) ->
  exists f, userFailure Unmarshal_userRequest env r f.
Proof.
  destruct (String.eqb_spec (http.Method r) http.MethodPost) as [Hm|Hm];
    [|by exists WrongMethod].
  destruct (http.Body r) as [raw|] eqn:Hb; [|by exists UnreadableBody].
  destruct (Unmarshal_userRequest raw) as [req|] eqn:Hu;
    [|exists MalformedJSON; cbn; eauto].
  destruct (db_fails env) eqn:Hdb; [exists PersistenceFailure; cbn; eauto 10|].
  intros (code & Hcode & Hge). exfalso. revert Hcode.
  unfold serve, createUserHandler.
  rewrite (method_is_POST _ Hm), Hb, Hu. run_handler. rewrite Hdb. cbn.
  intros [= <-]. unfold http.StatusCreated in Hge. lia.
Qed.

Lemma createChirp_error_cause :
  isError (snd (serve (createChirpHandler To_LowerCase
                         Unmarshal_chirpCreateRequest env) cfg r)) ->
  exists f, chirpFailure Unmarshal_chirpCreateRequest env r f.
Proof.
  destruct (String.eqb_spec (http.Method r) http.MethodPost) as [Hm|Hm];
    [|by exists WrongMethod].
  destruct (http.Body r) as [raw|] eqn:Hb; [|by exists UnreadableBody].
  destruct (Unmarshal_chirpCreateRequest raw) as [req|] eqn:Hu;
    [|exists MalformedJSON; cbn; eauto].
  destruct (Nat.ltb_spec 140 (String.length (chirpCreateRequest_Body req)))
    as [Hlen|Hlen]; [exists TooLong; cbn; eauto 10|].
  destruct (db_fails env) eqn:Hdb; [exists PersistenceFailure; cbn; eauto 10|].
  intros (code & Hcode & Hge). exfalso. revert Hcode.
  unfold serve, createChirpHandler.
  apply Nat.ltb_ge in Hlen.
  rewrite (method_is_POST _ Hm), Hb, Hu, Hlen. run_handler. rewrite Hdb. cbn.
  intros [= <-]. unfold http.StatusCreated in Hge. lia.
Qed.

End ErrorClasses.

(** C8, as the code has it: a request to [createUserHandler] or
    [createChirpHandler] fails in one of four classes. A method other than
    POST gives 405 with an empty body; a body that cannot be read gives 500
    with a JSON error object; malformed JSON or an over-length chirp gives
    400 with a JSON error object; a failing database statement gives 500
    with the JSON error "Failed to create user" or "Failed to create chirp".
    Every error response comes from one of these failures. *)
Theorem C8_error_classes
    (To_LowerCase : Z -> Z)
    (Unmarshal_userRequest : string -> option userRequest)
    (Unmarshal_chirpCreateRequest : string -> option chirpCreateRequest)
    (env : Env) (cfg : apiConfig) (r : http.Request) :
  let wu := snd (serve (createUserHandler Unmarshal_userRequest env) cfg r) in
  let wc := snd (serve (createChirpHandler To_LowerCase
                          Unmarshal_chirpCreateRequest env) cfg r) in
  (forall f, userFailure Unmarshal_userRequest env r f ->
             wu = failureResponse "user" f)
  /\ (forall f, chirpFailure Unmarshal_chirpCreateRequest env r f ->
                wc = failureResponse "chirp" f)
  /\ (isError wu -> exists f, userFailure Unmarshal_userRequest env r f)
  /\ (isError wc -> exists f, chirpFailure Unmarshal_chirpCreateRequest env r f).
Proof.
  cbn zeta. split; [|split; [|split]].
  - apply createUser_failure.
  - apply createChirp_failure.
  - apply createUser_error_cause.
  - apply createChirp_error_cause.
Qed.

(** C8, as the specification has it, fails: a GET request to
    [createUserHandler] is answered with 405 and an empty body, an error in
    neither of the two classes. *)
Lemma C8_two_classes_counterexample :
  let w := snd (serve (createUserHandler sample_Unmarshal_userRequest (sample_env false))
                  (sample_cfg 0 "prod")
                  {| http.Method := "GET"; http.Body := Some "{}" |}) in
  w = {| header := ∅; status := Some 405; body := [] |}
  /\ isError w /\ ~ clientErrorClass w /\ ~ serverErrorClass w.
Proof.
  cbn zeta. split; [reflexivity|]. split; [|split].
  - exists 405. split; [reflexivity|lia].
  - intros (code & e & _ & _ & Hbody). discriminate Hbody.
  - intros (e & _ & Hbody). discriminate Hbody.
Qed.

(** ** The hit counter under concurrent requests *)

Lemma Int32_wrap_add a b : Int32.wrap (Int32.wrap a + b) = Int32.wrap (a + b).
Proof.
  unfold Int32.wrap.
  replace ((a + 2 ^ 31) mod 2 ^ 32 - 2 ^ 31 + b + 2 ^ 31)
    with ((a + 2 ^ 31) mod 2 ^ 32 + b) by ring.
  rewrite Z.add_mod_idemp_l by lia. f_equal. f_equal. ring.
Qed.

Lemma Int32_wrap_id a :
  Int32.MinInt32 <= a <= Int32.MaxInt32 -> Int32.wrap a = a.
Proof.
  unfold Int32.wrap, Int32.MinInt32, Int32.MaxInt32. intros Ha.
  rewrite Z.mod_small by lia. ring.
Qed.

Module ConcurrentFacts.
Import Concurrent.

Lemma cfg_after_Add delta c :
  cfg_after (fileserverHits_Add delta) c
  = {| fileserverHits := Int32.Add (fileserverHits c) delta;
       db := db c; platform := platform c |}.
Proof. reflexivity. Qed.

(** The two steps of a request are the two statements of
    [middlewareMetricsInc], for a wrapped handler that leaves the
    configuration alone. *)
Lemma middlewareMetricsInc_cfg (next : http.Request -> handler unit) r c :
  (forall st, fst (snd (next r st)) = fst st) ->
  cfg_after (middlewareMetricsInc next r) c
  = cfg_after (fileserverHits_Add 1) c.
Proof.
  intros Hnext. unfold cfg_after, middlewareMetricsInc.
  cbv [mbind handler_bind fileserverHits_Add]. cbn. by rewrite Hnext.
Qed.

Lemma counted_cons p ps :
  counted (p :: ps) = ((if decide (p = AtAdd) then 0 else 1) + counted ps)%nat.
Proof.
  unfold counted. rewrite filter_cons.
  destruct (decide (p = AtAdd)) as [->|Hp].
  - by rewrite decide_False by (intros H; by apply H).
  - by rewrite decide_True by done.
Qed.

Lemma counted_Add ps i :
  ps !! i = Some AtAdd -> counted (<[i := AtNext]> ps) = S (counted ps).
Proof.
  revert i. induction ps as [|p ps IH]; intros [|i] Hi; try done.
  - injection Hi as ->. cbn [insert list_insert]. by rewrite !counted_cons.
  - cbn [insert list_insert]. rewrite !counted_cons.
    change (list_insert i AtNext ps) with (<[i:=AtNext]> ps).
    rewrite IH by done. lia.
Qed.

Lemma counted_next ps i :
  ps !! i = Some AtNext -> counted (<[i := Returned]> ps) = counted ps.
Proof.
  revert i. induction ps as [|p ps IH]; intros [|i] Hi; try done.
  - injection Hi as ->. cbn [insert list_insert]. by rewrite !counted_cons.
  - cbn [insert list_insert]. rewrite !counted_cons.
    change (list_insert i Returned ps) with (<[i:=Returned]> ps).
    by rewrite IH.
Qed.

Lemma counted_replicate_AtAdd n : counted (replicate n AtAdd) = 0%nat.
Proof.
  induction n as [|n IH]; [done|].
  cbn [replicate]. rewrite counted_cons, IH. done.
Qed.

Lemma counted_complete ps :
  Forall (fun p => p = Returned) ps -> counted ps = length ps.
Proof.
  induction 1 as [|p ps -> _ IH]; [done|].
  rewrite counted_cons, IH. done.
Qed.

(** What every reachable state satisfies: as many requests as arrived, and
    a counter that has every increment made so far. *)
Definition inv (c : apiConfig) (n : nat) (st : state) : Prop :=
  length (requests st) = n
  /\ fileserverHits (cfg st)
     = Int32.wrap (fileserverHits c + Z.of_nat (counted (requests st)))
  /\ db (cfg st) = db c /\ platform (cfg st) = platform c.

Lemma inv_init c n :
  Int32.MinInt32 <= fileserverHits c <= Int32.MaxInt32 -> inv c n (init c n).
Proof.
  intros Hc. unfold inv, init. cbn [cfg requests].
  rewrite length_replicate, counted_replicate_AtAdd.
  rewrite Z.add_0_r, Int32_wrap_id by done. done.
Qed.

Lemma inv_step c n st st' : inv c n st -> step st st' -> inv c n st'.
Proof.
  intros (Hlen & Hhits & Hdb & Hp) Hstep. unfold inv.
  destruct Hstep as [i st Hi|i st Hi]; cbn [cfg requests].
  - rewrite cfg_after_Add. cbn [fileserverHits db platform].
    rewrite length_insert, (counted_Add _ _ Hi), Hhits.
    unfold Int32.Add. rewrite Int32_wrap_add.
    repeat split; [done| |done..]. f_equal. lia.
  - by rewrite length_insert, (counted_next _ _ Hi).
Qed.

Lemma inv_run c n st :
  Int32.MinInt32 <= fileserverHits c <= Int32.MaxInt32 ->
  rtc step (init c n) st -> inv c n st.
Proof.
  intros Hc Hrun.
  apply (rtc_ind_r (R := step) (inv c n) (init c n)); [by apply inv_init| |done].
  intros st1 st2 _ Hstep Hinv. by eapply inv_step.
Qed.

Lemma in_turn_run k m c :
  rtc step {| cfg := c; requests := replicate k Returned ++ replicate m AtAdd |}
           {| cfg := in_turn m c; requests := replicate (k + m) Returned |}.
Proof.
  revert k c. induction m as [|m IH]; intros k c.
  - cbn. rewrite app_nil_r, Nat.add_0_r. done.
  - cbn [in_turn].
    eapply rtc_l.
    { apply (step_Add k). cbn.
      rewrite lookup_app_r by (rewrite length_replicate; lia).
      rewrite length_replicate, Nat.sub_diag. done. }
    eapply rtc_l.
    { apply (step_next k). cbn.
      apply list_lookup_insert_eq.
      rewrite length_app, !length_replicate. cbn. lia. }
    cbn. rewrite list_insert_insert_eq.
    replace (<[k:=Returned]> (replicate k Returned ++ replicate (S m) AtAdd))
      with (replicate (S k) Returned ++ replicate m AtAdd).
    + replace (k + S m)%nat with (S k + m)%nat by lia. apply IH.
    + rewrite insert_app_r_alt by (rewrite length_replicate; lia).
      rewrite length_replicate, Nat.sub_diag.
      rewrite replicate_S_end, <- app_assoc. reflexivity.
Qed.

End ConcurrentFacts.

(** C9, with the counter as the 32-bit integer it is: [n] static-file
    requests that arrive on a counter value [c] can all complete, and
    whatever the interleaving of their steps, once all have completed the
    counter is [c + n] reduced to the range of [int32]; it is [c + n] itself
    as long as that does not exceed [MaxInt32]. *)
Theorem C9_no_lost_increment (c : apiConfig) (n : nat) :
  Int32.MinInt32 <= fileserverHits c <= Int32.MaxInt32 ->
  (exists st, rtc Concurrent.step (Concurrent.init c n) st /\ Concurrent.complete st)
  /\ (forall st,
         rtc Concurrent.step (Concurrent.init c n) st ->
         Concurrent.complete st ->
         fileserverHits (Concurrent.cfg st)
         = Int32.wrap (fileserverHits c + Z.of_nat n)
         /\ (fileserverHits c + Z.of_nat n <= Int32.MaxInt32 ->
             fileserverHits (Concurrent.cfg st) = fileserverHits c + Z.of_nat n)).
Proof.
  intros Hc. split.
  - exists {| Concurrent.cfg := Concurrent.in_turn n c;
              Concurrent.requests := replicate n Concurrent.Returned |}.
    split.
    + apply (ConcurrentFacts.in_turn_run 0 n c).
    + unfold Concurrent.complete. cbn. by apply Forall_replicate.
  - intros st Hrun Hdone.
    destruct (ConcurrentFacts.inv_run c n st Hc Hrun) as (Hlen & Hhits & _).
    rewrite (ConcurrentFacts.counted_complete _ Hdone), Hlen in Hhits.
    split; [done|]. intros Hmax. rewrite Hhits.
    apply Int32_wrap_id. lia.
Qed.

Lemma C9_no_lost_increment_witness :
  (exists st, rtc Concurrent.step (Concurrent.init (sample_cfg 5 "prod") 3) st
              /\ Concurrent.complete st)
  /\ (forall st,
         rtc Concurrent.step (Concurrent.init (sample_cfg 5 "prod") 3) st ->
         Concurrent.complete st ->
         fileserverHits (Concurrent.cfg st) = 8
         /\ (5 + 3 <= Int32.MaxInt32 -> fileserverHits (Concurrent.cfg st) = 5 + 3)).
Proof.
  apply (C9_no_lost_increment (sample_cfg 5 "prod") 3).
  vm_compute. split; discriminate.
Defined.

(** C9, as the specification has it, fails at the end of the range of
    [int32]: one request on a counter of 2147483647 leaves -2147483648. *)
Lemma C9_overflow_counterexample :
  exists st,
    rtc Concurrent.step (Concurrent.init (sample_cfg 2147483647 "prod") 1) st
    /\ Concurrent.complete st
    /\ fileserverHits (Concurrent.cfg st) = -2147483648
    /\ fileserverHits (Concurrent.cfg st) <> 2147483647 + 1.
Proof.
  exists {| Concurrent.cfg := Concurrent.in_turn 1 (sample_cfg 2147483647 "prod");
            Concurrent.requests := [Concurrent.Returned] |}.
  split; [|split; [|split]].
  - apply (ConcurrentFacts.in_turn_run 0 1).
  - by repeat constructor.
  - reflexivity.
  - vm_compute. discriminate.
Qed.

(** * Further properties of the code *)

(** ** The cleaning transform again *)

Lemma ToLower_mask To_LowerCase : strings.ToLower To_LowerCase "****" = "****".
Proof. reflexivity. Qed.

Lemma maskWord_profane To_LowerCase tok :
  strings.ToLower To_LowerCase tok ∈ profaneWords ->
  maskWord To_LowerCase tok = "****".
Proof. intros Hp. unfold maskWord. by rewrite bool_decide_eq_true_2. Qed.

Lemma maskWord_other To_LowerCase tok :
  strings.ToLower To_LowerCase tok ∉ profaneWords ->
  maskWord To_LowerCase tok = tok.
Proof. intros Hp. unfold maskWord. by rewrite bool_decide_eq_false_2. Qed.

Lemma mask_not_profane To_LowerCase :
  strings.ToLower To_LowerCase "****" ∉ profaneWords.
Proof.
  rewrite ToLower_mask. unfold profaneWords.
  rewrite !elem_of_cons, elem_of_nil. by intros [|[|[|]]].
Qed.

Lemma maskWord_clean To_LowerCase tok :
  strings.ToLower To_LowerCase (maskWord To_LowerCase tok) ∉ profaneWords.
Proof.
  destruct (decide (strings.ToLower To_LowerCase tok ∈ profaneWords)) as [Hp|Hp].
  - rewrite maskWord_profane by done. apply mask_not_profane.
  - by rewrite maskWord_other.
Qed.

Lemma maskWord_idem To_LowerCase tok :
  maskWord To_LowerCase (maskWord To_LowerCase tok) = maskWord To_LowerCase tok.
Proof. apply maskWord_other, maskWord_clean. Qed.

(** X1: cleaning a cleaned text changes nothing. *)
Theorem X1_clean_idempotent (To_LowerCase : Z -> Z) (body : string) :
  cleanChirp To_LowerCase (cleanChirp To_LowerCase body)
  = cleanChirp To_LowerCase body.
Proof.
  rewrite (cleanChirp_eq To_LowerCase (cleanChirp To_LowerCase body)).
  unfold cleanChirp_ref. rewrite Split_cleanChirp.
  rewrite cleanChirp_eq. unfold cleanChirp_ref. f_equal.
  rewrite <- list_fmap_compose. apply list_fmap_ext.
  intros i tok _. apply maskWord_idem.
Qed.

(** X2: a cleaned text has as many tokens as the text, every token is the
    token of the text at its place or the mask, and no token is, lower-cased,
    a denylist word. *)
Theorem X2_cleaned_tokens (To_LowerCase : Z -> Z) (body : string) :
  length (strings.Split (cleanChirp To_LowerCase body) " ")
  = length (strings.Split body " ")
  /\ (forall i tok,
         strings.Split (cleanChirp To_LowerCase body) " " !! i = Some tok ->
         (strings.ToLower To_LowerCase tok ∉ profaneWords)
         /\ (tok = "****" \/ (strings.Split body " " !! i) = Some tok)).
Proof.
  rewrite Split_cleanChirp. split; [by rewrite length_fmap|].
  intros i tok Hi. apply list_lookup_fmap_Some in Hi as (tok0 & -> & Hi).
  split; [apply maskWord_clean|].
  destruct (decide (strings.ToLower To_LowerCase tok0 ∈ profaneWords)) as [Hp|Hp].
  - left. by apply maskWord_profane.
  - right. by rewrite maskWord_other.
Qed.

(** ** The handlers again *)

Ltac run_earlier :=
  unfold Earlier.serve;
  cbv [mbind mret Earlier.handler_bind Earlier.handler_ret Earlier.WriteHeader
       Earlier.Header_Set Earlier.Write Earlier.fileserverHits_Add
       Earlier.fileserverHits_Store Earlier.fileserverHits_Load
       newResponseWriter];
  cbn.

Lemma method_is_GET r :
  http.Method r = http.MethodGet ->
  negb (String.eqb (http.Method r) http.MethodGet) = false.
Proof. intros ->. reflexivity. Qed.

Lemma method_not_GET r :
  http.Method r <> http.MethodGet ->
  negb (String.eqb (http.Method r) http.MethodGet) = true.
Proof. intros Hne. by destruct (String.eqb_spec (http.Method r) http.MethodGet). Qed.

(** X3: [validateChirpHandler] only answers: whatever the request, the hit
    counter, the tables and the platform are as before. *)
Theorem X3_validate_reads_only
    (To_LowerCase : Z -> Z)
    (Unmarshal_chirpRequest : string -> option chirpRequest)
    (cfg : apiConfig) (r : http.Request) :
  fst (serve (validateChirpHandler To_LowerCase Unmarshal_chirpRequest) cfg r) = cfg.
Proof.
  unfold serve, validateChirpHandler.
  destruct (negb _); [done|].
  destruct (http.Body r) as [raw|]; [|done].
  destruct (Unmarshal_chirpRequest raw) as [chirp|]; [|done].
  by destruct (_ <? _)%nat.
Qed.

(** X4: for a POST whose text has at most 140 bytes, [validateChirpHandler]
    answers 200 with the content type of JSON and a chirp object whose body
    is the cleaned text; the other fields have their zero values. *)
Theorem X4_validate_accepts
    (To_LowerCase : Z -> Z)
    (Unmarshal_chirpRequest : string -> option chirpRequest)
    (cfg : apiConfig) (r : http.Request) (raw : string) (chirp : chirpRequest) :
  http.Method r = http.MethodPost ->
  http.Body r = Some raw ->
  Unmarshal_chirpRequest raw = Some chirp ->
  (String.length (chirpRequest_Body chirp) <= 140)%nat ->
  snd (serve (validateChirpHandler To_LowerCase Unmarshal_chirpRequest) cfg r)
  = jsonWritten http.StatusOK
      (JSON_chirp {| chirpResponse_ID := "";
                     chirpResponse_CreatedAt := 0;
                     chirpResponse_UpdatedAt := 0;
                     chirpResponse_Body :=
                       cleanChirp To_LowerCase (chirpRequest_Body chirp);
                     chirpResponse_UserID := "" |}).
Proof.
  intros Hm Hb Hu Hlen%Nat.ltb_ge. unfold serve, validateChirpHandler.
  rewrite (method_is_POST _ Hm), Hb, Hu, Hlen. run_handler.
  unfold jsonWritten. f_equal.
Qed.

Lemma X4_validate_accepts_witness :
  snd (serve (validateChirpHandler noCase sample_Unmarshal_chirpRequest)
         (sample_cfg 3 "prod")
         {| http.Method := "POST"; http.Body := Some "what a Fornax it was" |})
  = jsonWritten 200
      (JSON_chirp {| chirpResponse_ID := "";
                     chirpResponse_CreatedAt := 0;
                     chirpResponse_UpdatedAt := 0;
                     chirpResponse_Body := "what a **** it was";
                     chirpResponse_UserID := "" |}).
Proof.
  refine (X4_validate_accepts noCase sample_Unmarshal_chirpRequest
            (sample_cfg 3 "prod")
            {| http.Method := "POST"; http.Body := Some "what a Fornax it was" |}
            "what a Fornax it was"
            {| chirpRequest_Body := "what a Fornax it was" |}
            eq_refl eq_refl eq_refl _).
  vm_compute. lia.
Defined.

(** X5: [validateChirpHandler] and [createChirpHandler] clean alike: for the
    same text of at most 140 bytes, the body the one answers with is the
    body the other stores and answers with. *)
Theorem X5_validate_create_agree
    (To_LowerCase : Z -> Z)
    (Unmarshal_chirpRequest : string -> option chirpRequest)
    (Unmarshal_chirpCreateRequest : string -> option chirpCreateRequest)
    (env : Env) (cfg : apiConfig) (r : http.Request)
    (raw : string) (chirp : chirpRequest) (req : chirpCreateRequest) :
  http.Method r = http.MethodPost ->
  http.Body r = Some raw ->
  Unmarshal_chirpRequest raw = Some chirp ->
  Unmarshal_chirpCreateRequest raw = Some req ->
  chirpRequest_Body chirp = chirpCreateRequest_Body req ->
  (String.length (chirpCreateRequest_Body req) <= 140)%nat ->
  db_fails env = false ->
  exists validated created stored,
    body (snd (serve (validateChirpHandler To_LowerCase Unmarshal_chirpRequest)
                 cfg r)) = [JSON_chirp validated]
    /\ body (snd (serve (createChirpHandler To_LowerCase
                           Unmarshal_chirpCreateRequest env) cfg r))
       = [JSON_chirp created]
    /\ last (database.chirps
               (db (fst (serve (createChirpHandler To_LowerCase
                                  Unmarshal_chirpCreateRequest env) cfg r))))
       = Some stored
    /\ chirpResponse_Body validated = chirpResponse_Body created
    /\ chirpResponse_Body created = database.Chirp_Body stored.
Proof.
  intros Hm Hb Hu Hreq Hbody Hlen%Nat.ltb_ge Hdb.
  unfold serve, validateChirpHandler, createChirpHandler.
  rewrite (method_is_POST _ Hm), Hb, Hu, Hreq, Hbody, Hlen. run_handler.
  rewrite Hdb. cbn. eexists _, _, _. rewrite last_snoc. done.
Qed.

Lemma X5_validate_create_agree_witness :
  exists validated created stored,
    body (snd (serve (validateChirpHandler noCase sample_Unmarshal_chirpRequest)
                 (sample_cfg 0 "prod")
                 {| http.Method := "POST"; http.Body := Some "oh KERFUFFLE" |}))
    = [JSON_chirp validated]
    /\ body (snd (serve (createChirpHandler noCase
                           sample_Unmarshal_chirpCreateRequest (sample_env false))
                    (sample_cfg 0 "prod")
                    {| http.Method := "POST"; http.Body := Some "oh KERFUFFLE" |}))
       = [JSON_chirp created]
    /\ last (database.chirps
               (db (fst (serve (createChirpHandler noCase
                                  sample_Unmarshal_chirpCreateRequest
                                  (sample_env false))
                           (sample_cfg 0 "prod")
                           {| http.Method := "POST";
                              http.Body := Some "oh KERFUFFLE" |}))))
       = Some stored
    /\ chirpResponse_Body validated = chirpResponse_Body created
    /\ chirpResponse_Body created = database.Chirp_Body stored.
Proof.
  refine (X5_validate_create_agree noCase sample_Unmarshal_chirpRequest
            sample_Unmarshal_chirpCreateRequest (sample_env false)
            (sample_cfg 0 "prod")
            {| http.Method := "POST"; http.Body := Some "oh KERFUFFLE" |}
            "oh KERFUFFLE" {| chirpRequest_Body := "oh KERFUFFLE" |}
            {| chirpCreateRequest_Body := "oh KERFUFFLE";
               chirpCreateRequest_UserID := "3fa85f64-5717-4562-b3fc-2c963f66afa6" |}
            eq_refl eq_refl eq_refl eq_refl eq_refl _ eq_refl).
  vm_compute. lia.
Defined.

(** X6: [createUserHandler] never touches the hit counter, the platform or
    the chirps. It stores a user exactly when it answers 201: the row has
    the fresh identifier, the time of the request for both timestamps and
    the e-mail of the request, it comes after the rows already there, and
    the answer shows that row. With any other answer nothing is stored. *)
Theorem X6_createUser_effect
    (Unmarshal_userRequest : string -> option userRequest)
    (env : Env) (cfg : apiConfig) (r : http.Request) :
  let cfg' := fst (serve (createUserHandler Unmarshal_userRequest env) cfg r) in
  let w := snd (serve (createUserHandler Unmarshal_userRequest env) cfg r) in
  fileserverHits cfg' = fileserverHits cfg
  /\ platform cfg' = platform cfg
  /\ database.chirps (db cfg') = database.chirps (db cfg)
  /\ ((exists raw req,
          http.Body r = Some raw /\ Unmarshal_userRequest raw = Some req
          /\ let user := {| database.User_ID := uuid_New env;
                            database.User_CreatedAt := time_Now env;
                            database.User_UpdatedAt := time_Now env;
                            database.User_Email := userRequest_Email req |} in
             database.users (db cfg') = database.users (db cfg) ++ [user]
             /\ w = jsonWritten http.StatusCreated
                      (JSON_user (userResponse_of user)))
      \/ (status w <> Some http.StatusCreated /\ cfg' = cfg)).
Proof.
  cbn zeta. unfold serve, createUserHandler.
  destruct (negb _); [by repeat split; try right|].
  destruct (http.Body r) as [raw|]; [|by repeat split; try right].
  destruct (Unmarshal_userRequest raw) as [req|] eqn:Hreq;
    [|by repeat split; try right].
  run_handler. destruct (db_fails env); cbn.
  - repeat split. right. split; [done|]. by destruct cfg.
  - repeat split. left. by exists raw, req.
Qed.

(** X7: [createChirpHandler] never touches the hit counter, the platform or
    the users. It stores a chirp exactly when it answers 201: the row has
    the fresh identifier, the time of the request for both timestamps, the
    cleaned text and the user identifier of the request, whether or not
    such a user exists; it comes after the rows already there, and the
    answer shows that row. With any other answer nothing is stored. *)
Theorem X7_createChirp_effect
    (To_LowerCase : Z -> Z)
    (Unmarshal_chirpCreateRequest : string -> option chirpCreateRequest)
    (env : Env) (cfg : apiConfig) (r : http.Request) :
  let cfg' := fst (serve (createChirpHandler To_LowerCase
                            Unmarshal_chirpCreateRequest env) cfg r) in
  let w := snd (serve (createChirpHandler To_LowerCase
                         Unmarshal_chirpCreateRequest env) cfg r) in
  fileserverHits cfg' = fileserverHits cfg
  /\ platform cfg' = platform cfg
  /\ database.users (db cfg') = database.users (db cfg)
  /\ ((exists raw req,
          http.Body r = Some raw /\ Unmarshal_chirpCreateRequest raw = Some req
          /\ let chirp :=
               {| database.Chirp_ID := uuid_New env;
                  database.Chirp_CreatedAt := time_Now env;
                  database.Chirp_UpdatedAt := time_Now env;
                  database.Chirp_Body :=
                    cleanChirp To_LowerCase (chirpCreateRequest_Body req);
                  database.Chirp_UserID := chirpCreateRequest_UserID req |} in
             database.chirps (db cfg') = database.chirps (db cfg) ++ [chirp]
             /\ w = jsonWritten http.StatusCreated
                      (JSON_chirp (chirpResponse_of chirp)))
      \/ (status w <> Some http.StatusCreated /\ cfg' = cfg)).
Proof.
  cbn zeta. unfold serve, createChirpHandler.
  destruct (negb _); [by repeat split; try right|].
  destruct (http.Body r) as [raw|]; [|by repeat split; try right].
  destruct (Unmarshal_chirpCreateRequest raw) as [req|] eqn:Hreq;
    [|by repeat split; try right].
  destruct (_ <? _)%nat; [by repeat split; try right|].
  run_handler. destruct (db_fails env); cbn.
  - repeat split. right. split; [done|]. by destruct cfg.
  - repeat split. left. by exists raw, req.
Qed.

(** X8: every handler answers a request of the wrong method with 405, sets
    no header, writes nothing to the body and leaves the configuration as
    it was: [healthzHandler] and [metricsHandler] take GET only, the four
    others POST only. *)
Theorem X8_wrong_method
    (To_LowerCase : Z -> Z)
    (Unmarshal_chirpRequest : string -> option chirpRequest)
    (Unmarshal_userRequest : string -> option userRequest)
    (Unmarshal_chirpCreateRequest : string -> option chirpCreateRequest)
    (env : Env) (cfg : apiConfig) (r : http.Request) :
  (http.Method r <> http.MethodGet ->
   serve healthzHandler cfg r = (cfg, methodNotAllowed)
   /\ serve metricsHandler cfg r = (cfg, methodNotAllowed))
  /\ (http.Method r <> http.MethodPost ->
      serve (validateChirpHandler To_LowerCase Unmarshal_chirpRequest) cfg r
      = (cfg, methodNotAllowed)
      /\ serve (createUserHandler Unmarshal_userRequest env) cfg r
         = (cfg, methodNotAllowed)
      /\ serve (createChirpHandler To_LowerCase Unmarshal_chirpCreateRequest env)
           cfg r
         = (cfg, methodNotAllowed)
      /\ serve (resetHandler env) cfg r = (cfg, methodNotAllowed)).
Proof.
  split.
  - intros Hm. unfold serve, healthzHandler, metricsHandler.
    by rewrite (method_not_GET _ Hm).
  - intros Hm.
    unfold serve, validateChirpHandler, createUserHandler, createChirpHandler,
      resetHandler.
    by rewrite (method_not_POST _ Hm).
Qed.

(** X9: a GET of the health or of the metrics endpoint leaves the
    configuration as it was, so looking at the metrics is not a visit; the
    health endpoint answers 200 with the plain text "OK", the metrics
    endpoint 200 with the HTML page of the current value of the counter. *)
Theorem X9_health_and_metrics (cfg : apiConfig) (r : http.Request) :
  http.Method r = http.MethodGet ->
  serve healthzHandler cfg r
  = (cfg, {| header := {["Content-Type" := "text/plain; charset=utf-8"]};
             status := Some http.StatusOK; body := [Bytes "OK"] |})
  /\ serve metricsHandler cfg r
     = (cfg, {| header := {["Content-Type" := "text/html; charset=utf-8"]};
                status := Some http.StatusOK;
                body := [MetricsPage (fileserverHits cfg)] |}).
Proof.
  intros Hm. unfold serve, healthzHandler, metricsHandler.
  rewrite (method_is_GET _ Hm). run_handler. done.
Qed.

Lemma X9_health_and_metrics_witness :
  serve healthzHandler (sample_cfg 12 "prod")
        {| http.Method := "GET"; http.Body := Some "" |}
  = (sample_cfg 12 "prod",
     {| header := {["Content-Type" := "text/plain; charset=utf-8"]};
        status := Some 200; body := [Bytes "OK"] |})
  /\ serve metricsHandler (sample_cfg 12 "prod")
           {| http.Method := "GET"; http.Body := Some "" |}
     = (sample_cfg 12 "prod",
        {| header := {["Content-Type" := "text/html; charset=utf-8"]};
           status := Some 200; body := [MetricsPage 12] |}).
Proof.
  exact (X9_health_and_metrics (sample_cfg 12 "prod")
           {| http.Method := "GET"; http.Body := Some "" |} eq_refl).
Defined.

(** ** Static-file requests one after the other *)

Lemma middleware_once (next : http.Request -> handler unit) cfg r :
  leavesConfig next ->
  fst (serve (middlewareMetricsInc next) cfg r)
  = {| fileserverHits := Int32.Add (fileserverHits cfg) 1;
       db := db cfg; platform := platform cfg |}.
Proof.
  intros Hnext. unfold serve, middlewareMetricsInc.
  cbv [mbind handler_bind fileserverHits_Add newResponseWriter]. cbn.
  by rewrite Hnext.
Qed.

Lemma sample_fileServer_leavesConfig : leavesConfig sample_fileServer.
Proof. by intros r [cfg w]. Qed.

Lemma serveAll_hits (next : http.Request -> handler unit) rs :
  leavesConfig next ->
  forall c v k,
    fileserverHits c = Int32.wrap (v + k) ->
    serveAll (middlewareMetricsInc next) rs c
    = {| fileserverHits := Int32.wrap (v + k + Z.of_nat (length rs));
         db := db c; platform := platform c |}.
Proof.
  intros Hnext. induction rs as [|r rs IH]; intros c v k Hk.
  - cbn. rewrite Z.add_0_r, <- Hk. by destruct c.
  - cbn [serveAll length]. rewrite (middleware_once next c r Hnext).
    rewrite (IH _ v (k + 1)).
    + cbn. f_equal. f_equal. lia.
    + cbn. unfold Int32.Add. rewrite Hk, Int32_wrap_add. f_equal. lia.
Qed.

(** X10: static-file requests served one after the other count one hit
    each, whatever the method of the request and whatever the file server
    answers: after the requests [rs] the counter is its value before plus
    their number, reduced to the range of [int32], and the tables and the
    platform are as before. *)
Theorem X10_hits_counted
    (next : http.Request -> handler unit) (rs : list http.Request)
    (cfg : apiConfig) :
  leavesConfig next ->
  Int32.MinInt32 <= fileserverHits cfg <= Int32.MaxInt32 ->
  serveAll (middlewareMetricsInc next) rs cfg
  = {| fileserverHits := Int32.wrap (fileserverHits cfg + Z.of_nat (length rs));
       db := db cfg; platform := platform cfg |}.
Proof.
  intros Hnext Hc.
  rewrite (serveAll_hits next rs Hnext cfg (fileserverHits cfg) 0).
  - by rewrite Z.add_0_r.
  - rewrite Z.add_0_r. by rewrite Int32_wrap_id.
Qed.

Lemma X10_hits_counted_witness :
  serveAll (middlewareMetricsInc sample_fileServer)
    [ {| http.Method := "GET"; http.Body := Some "" |};
      {| http.Method := "POST"; http.Body := None |} ]
    (sample_cfg 40 "prod")
  = {| fileserverHits := Int32.wrap (40 + 2);
       db := db (sample_cfg 40 "prod"); platform := "prod" |}.
Proof.
  apply (X10_hits_counted sample_fileServer
           [ {| http.Method := "GET"; http.Body := Some "" |};
             {| http.Method := "POST"; http.Body := None |} ]
           (sample_cfg 40 "prod") sample_fileServer_leavesConfig).
  vm_compute. split; discriminate.
Defined.

Lemma reset_in_dev_cfg env cfg r :
  http.Method r = http.MethodPost -> platform cfg = "dev" ->
  db_fails env = false ->
  fst (serve (resetHandler env) cfg r)
  = {| fileserverHits := 0;
       db := {| database.users := [];
                database.chirps := database.chirps (db cfg) |};
       platform := platform cfg |}.
Proof.
  intros Hm Hp Hdb. unfold serve, resetHandler.
  rewrite (method_is_POST _ Hm). run_handler.
  destruct (String.eqb_spec (platform cfg) "dev"); [|done].
  by rewrite Hdb.
Qed.

(** X11: in dev mode, after a reset that succeeds and then static-file
    requests served one after the other, the metrics page shows the number
    of those requests, as long as it is within the range of [int32]. *)
Theorem X11_metrics_after_reset
    (next : http.Request -> handler unit) (env : Env) (cfg : apiConfig)
    (reset get : http.Request) (rs : list http.Request) :
  leavesConfig next ->
  platform cfg = "dev" ->
  db_fails env = false ->
  http.Method reset = http.MethodPost ->
  http.Method get = http.MethodGet ->
  Z.of_nat (length rs) <= Int32.MaxInt32 ->
  let cfg1 := fst (serve (resetHandler env) cfg reset) in
  let cfg2 := serveAll (middlewareMetricsInc next) rs cfg1 in
  body (snd (serve metricsHandler cfg2 get))
  = [MetricsPage (Z.of_nat (length rs))].
Proof.
  intros Hnext Hp Hdb Hreset Hget Hlen cfg1 cfg2.
  unfold cfg2, cfg1. rewrite (reset_in_dev_cfg env cfg reset Hreset Hp Hdb).
  rewrite (serveAll_hits next rs Hnext _ 0 0) by done.
  unfold serve, metricsHandler. rewrite (method_is_GET _ Hget). run_handler.
  rewrite Int32_wrap_id; [done|].
  unfold Int32.MinInt32, Int32.MaxInt32 in *. lia.
Qed.

Lemma X11_metrics_after_reset_witness :
  let get := {| http.Method := "GET"; http.Body := Some "" |} in
  let post := {| http.Method := "POST"; http.Body := Some "" |} in
  let cfg1 := fst (serve (resetHandler (sample_env false))
                     (sample_cfg 77 "dev") post) in
  let cfg2 := serveAll (middlewareMetricsInc sample_fileServer)
                [get; get; get] cfg1 in
  body (snd (serve metricsHandler cfg2 get)) = [MetricsPage 3].
Proof.
  refine (X11_metrics_after_reset sample_fileServer (sample_env false)
            (sample_cfg 77 "dev")
            {| http.Method := "POST"; http.Body := Some "" |}
            {| http.Method := "GET"; http.Body := Some "" |}
            [ {| http.Method := "GET"; http.Body := Some "" |};
              {| http.Method := "GET"; http.Body := Some "" |};
              {| http.Method := "GET"; http.Body := Some "" |} ]
            sample_fileServer_leavesConfig eq_refl eq_refl eq_refl eq_refl _).
  vm_compute. discriminate.
Defined.

(** X12: in dev mode, a reset that succeeds followed by the creation of a
    user that succeeds leaves exactly that user in the table. *)
Theorem X12_user_after_reset
    (Unmarshal_userRequest : string -> option userRequest)
    (env1 env2 : Env) (cfg : apiConfig) (reset r : http.Request)
    (raw : string) (req : userRequest) :
  platform cfg = "dev" ->
  http.Method reset = http.MethodPost ->
  db_fails env1 = false ->
  http.Method r = http.MethodPost ->
  http.Body r = Some raw ->
  Unmarshal_userRequest raw = Some req ->
  db_fails env2 = false ->
  let cfg1 := fst (serve (resetHandler env1) cfg reset) in
  let cfg2 := fst (serve (createUserHandler Unmarshal_userRequest env2) cfg1 r) in
  database.users (db cfg2)
  = [{| database.User_ID := uuid_New env2;
        database.User_CreatedAt := time_Now env2;
        database.User_UpdatedAt := time_Now env2;
        database.User_Email := userRequest_Email req |}]
  /\ fileserverHits cfg2 = 0.
Proof.
  intros Hp Hreset Hdb1 Hm Hb Hreq Hdb2 cfg1 cfg2.
  unfold cfg2, cfg1. rewrite (reset_in_dev_cfg env1 cfg reset Hreset Hp Hdb1).
  unfold serve, createUserHandler.
  rewrite (method_is_POST _ Hm), Hb, Hreq. run_handler. by rewrite Hdb2.
Qed.

Lemma X12_user_after_reset_witness :
  let post := {| http.Method := "POST"; http.Body := Some "lane@example.com" |} in
  let cfg1 := fst (serve (resetHandler (sample_env false))
                     (sample_cfg 9 "dev") post) in
  let cfg2 := fst (serve (createUserHandler sample_Unmarshal_userRequest
                            (sample_env false)) cfg1 post) in
  database.users (db cfg2)
  = [{| database.User_ID := "0b7a9d0e-8f0a-4c51-9d3c-5d2a4c8f1e11";
        database.User_CreatedAt := 1700000000;
        database.User_UpdatedAt := 1700000000;
        database.User_Email := "lane@example.com" |}]
  /\ fileserverHits cfg2 = 0.
Proof.
  exact (X12_user_after_reset sample_Unmarshal_userRequest
           (sample_env false) (sample_env false) (sample_cfg 9 "dev")
           {| http.Method := "POST"; http.Body := Some "lane@example.com" |}
           {| http.Method := "POST"; http.Body := Some "lane@example.com" |}
           "lane@example.com" {| userRequest_Email := "lane@example.com" |}
           eq_refl eq_refl eq_refl eq_refl eq_refl eq_refl eq_refl).
Defined.

(** ** The counter while requests are being served *)

Lemma counted_le_length ps :
  (Concurrent.counted ps <= length ps)%nat.
Proof. unfold Concurrent.counted. apply length_filter. Qed.

(** X13: at every moment while [n] static-file requests are served
    concurrently, the metrics page shows the value of the counter at their
    arrival plus the number of requests that have made their increment, at
    most [n], reduced to the range of [int32]; the tables and the platform
    are as at their arrival. *)
Theorem X13_metrics_while_serving
    (c : apiConfig) (n : nat) (st : Concurrent.state) (get : http.Request) :
  Int32.MinInt32 <= fileserverHits c <= Int32.MaxInt32 ->
  rtc Concurrent.step (Concurrent.init c n) st ->
  http.Method get = http.MethodGet ->
  exists k : nat,
    (k <= n)%nat
    /\ k = Concurrent.counted (Concurrent.requests st)
    /\ body (snd (serve metricsHandler (Concurrent.cfg st) get))
       = [MetricsPage (Int32.wrap (fileserverHits c + Z.of_nat k))]
    /\ db (Concurrent.cfg st) = db c
    /\ platform (Concurrent.cfg st) = platform c.
Proof.
  intros Hc Hrun Hget.
  destruct (ConcurrentFacts.inv_run c n st Hc Hrun) as (Hlen & Hhits & Hdb & Hp).
  exists (Concurrent.counted (Concurrent.requests st)).
  split; [rewrite <- Hlen; apply counted_le_length|]. split; [done|].
  split; [|done].
  unfold serve, metricsHandler. rewrite (method_is_GET _ Hget). run_handler.
  by rewrite Hhits.
Qed.

Lemma X13_metrics_while_serving_witness :
  exists k : nat,
    (k <= 2)%nat
    /\ k = Concurrent.counted [Concurrent.AtNext; Concurrent.AtAdd]
    /\ body (snd (serve metricsHandler
                    (Concurrent.cfg_after (fileserverHits_Add 1) (sample_cfg 5 "prod"))
                    {| http.Method := "GET"; http.Body := Some "" |}))
       = [MetricsPage (Int32.wrap (5 + Z.of_nat k))]
    /\ db (Concurrent.cfg_after (fileserverHits_Add 1) (sample_cfg 5 "prod"))
       = db (sample_cfg 5 "prod")
    /\ platform (Concurrent.cfg_after (fileserverHits_Add 1) (sample_cfg 5 "prod"))
       = "prod".
Proof.
  refine (X13_metrics_while_serving (sample_cfg 5 "prod") 2
            {| Concurrent.cfg :=
                 Concurrent.cfg_after (fileserverHits_Add 1) (sample_cfg 5 "prod");
               Concurrent.requests := [Concurrent.AtNext; Concurrent.AtAdd] |}
            {| http.Method := "GET"; http.Body := Some "" |} _ _ eq_refl).
  - vm_compute. split; discriminate.
  - apply rtc_once.
    exact (Concurrent.step_Add 0 (Concurrent.init (sample_cfg 5 "prod") 2) eq_refl).
Defined.

(** ** The start of the server *)

Lemma Getenv_empty (environ : gmap string string) key :
  os.Getenv environ key = "" <-> environ !! key = None \/ environ !! key = Some "".
Proof.
  unfold os.Getenv. destruct (environ !! key) as [v|]; cbn.
  - split; [intros ->; by right|]. by intros [|[= ->]].
  - split; [by left|done].
Qed.

Lemma Getenv_dev (environ : gmap string string) key :
  os.Getenv environ key = "dev" <-> environ !! key = Some "dev".
Proof.
  unfold os.Getenv. destruct (environ !! key) as [v|]; cbn.
  - split; [by intros ->|by intros [= ->]].
  - done.
Qed.

(** X14: when the environment file loads but [DB_URL] is unset or empty,
    [main] panics with "DB_URL environment variable is not set" before it
    opens a database or builds a configuration. *)
Theorem X14_main_needs_DB_URL (p : Process) :
  godotenv_Load_fails p = false ->
  environ p !! "DB_URL" = None \/ environ p !! "DB_URL" = Some "" ->
  main_apiCfg p = inl (panic_msg "DB_URL environment variable is not set").
Proof.
  intros Hload Hurl%Getenv_empty. unfold main_apiCfg.
  by rewrite Hload, Hurl.
Qed.

Lemma X14_main_needs_DB_URL_witness :
  main_apiCfg {| godotenv_Load_fails := false;
                 environ := {["PLATFORM" := "dev"]};
                 sql_Open := fun _ => Some {| database.users := [];
                                              database.chirps := [] |} |}
  = inl (panic_msg "DB_URL environment variable is not set").
Proof.
  apply X14_main_needs_DB_URL; [reflexivity|]. left. reflexivity.
Defined.

(** X15: the configuration [main] builds starts the counter at zero and is
    in dev mode only when [PLATFORM] is set to "dev"; with [PLATFORM] unset
    or empty it is "prod". So, unless [PLATFORM] is "dev", a POST to the
    reset endpoint of the fresh server is answered with 403 and changes
    nothing. *)
Theorem X15_main_platform (p : Process) (cfg : apiConfig) :
  main_apiCfg p = inr cfg ->
  fileserverHits cfg = 0
  /\ (platform cfg = "dev" <-> environ p !! "PLATFORM" = Some "dev")
  /\ (environ p !! "PLATFORM" = None \/ environ p !! "PLATFORM" = Some "" ->
      platform cfg = "prod")
  /\ (forall env r,
         environ p !! "PLATFORM" <> Some "dev" ->
         http.Method r = http.MethodPost ->
         serve (resetHandler env) cfg r
         = (cfg, errorWritten http.StatusForbidden
                   "Reset endpoint only available in dev mode")).
Proof.
  unfold main_apiCfg. destruct (godotenv_Load_fails p); [done|].
  destruct (String.eqb _ ""); [done|].
  destruct (sql_Open p _) as [queries|]; [|done].
  intros [= <-]. cbn [fileserverHits platform].
  pose proof (Getenv_empty (environ p) "PLATFORM") as Hempty.
  pose proof (Getenv_dev (environ p) "PLATFORM") as Hdev.
  destruct (String.eqb_spec (os.Getenv (environ p) "PLATFORM") "") as [He|He].
  - split; [done|]. split; [|split; [done|]].
    + rewrite <- Hdev, He. done.
    + intros env r _ Hm. unfold serve, resetHandler.
      by rewrite (method_is_POST _ Hm).
  - split; [done|]. split; [done|]. split; [by intros ?%Hempty|].
    intros env r Hnot Hm. unfold serve, resetHandler.
    rewrite (method_is_POST _ Hm). run_handler.
    destruct (String.eqb_spec (os.Getenv (environ p) "PLATFORM") "dev") as [Hd|Hd];
      [by apply Hdev in Hd|done].
Qed.

Lemma X15_main_platform_witness :
  let queries := {| database.users := [sample_user]; database.chirps := [] |} in
  let cfg := {| fileserverHits := 0; db := queries; platform := "prod" |} in
  fileserverHits cfg = 0
  /\ (platform cfg = "dev"
      <-> ({["DB_URL" := "postgres://localhost:5432/chirpy"]} : gmap string string)
            !! "PLATFORM" = Some "dev")
  /\ (({["DB_URL" := "postgres://localhost:5432/chirpy"]} : gmap string string)
        !! "PLATFORM" = None
      \/ ({["DB_URL" := "postgres://localhost:5432/chirpy"]} : gmap string string)
           !! "PLATFORM" = Some "" ->
      platform cfg = "prod")
  /\ (forall env r,
         ({["DB_URL" := "postgres://localhost:5432/chirpy"]} : gmap string string)
           !! "PLATFORM" <> Some "dev" ->
         http.Method r = http.MethodPost ->
         serve (resetHandler env) cfg r
         = (cfg, errorWritten http.StatusForbidden
                   "Reset endpoint only available in dev mode")).
Proof.
  intros queries cfg.
  exact (X15_main_platform
           {| godotenv_Load_fails := false;
              environ := {["DB_URL" := "postgres://localhost:5432/chirpy"]};
              sql_Open := fun _ => Some queries |}
           cfg eq_refl).
Defined.

(** ** The earlier server *)

Lemma Earlier_middleware_once (next : http.Request -> Earlier.handler unit) cfg r :
  Earlier.leavesConfig next ->
  fst (Earlier.serve (Earlier.middlewareMetricsInc next) cfg r)
  = {| Earlier.fileserverHits := Int32.Add (Earlier.fileserverHits cfg) 1 |}.
Proof.
  intros Hnext. unfold Earlier.serve, Earlier.middlewareMetricsInc.
  cbv [mbind Earlier.handler_bind Earlier.fileserverHits_Add newResponseWriter].
  cbn. by rewrite Hnext.
Qed.

Lemma Earlier_serveAll_hits (next : http.Request -> Earlier.handler unit) rs :
  Earlier.leavesConfig next ->
  forall c v k,
    Earlier.fileserverHits c = Int32.wrap (v + k) ->
    Earlier.serveAll (Earlier.middlewareMetricsInc next) rs c
    = {| Earlier.fileserverHits := Int32.wrap (v + k + Z.of_nat (length rs)) |}.
Proof.
  intros Hnext. induction rs as [|r rs IH]; intros c v k Hk.
  - cbn. rewrite Z.add_0_r, <- Hk. by destruct c.
  - cbn [Earlier.serveAll length]. rewrite (Earlier_middleware_once next c r Hnext).
    rewrite (IH _ v (k + 1)).
    + f_equal. f_equal. lia.
    + cbn. unfold Int32.Add. rewrite Hk, Int32_wrap_add. f_equal. lia.
Qed.

Lemma Earlier_sample_fileServer_leavesConfig :
  Earlier.leavesConfig Earlier.sample_fileServer.
Proof. by intros r [cfg w]. Qed.

(** X16: in the server of [main.go] every POST to the reset endpoint puts
    the counter to zero, with no condition on a platform; after it and then
    static-file requests served one after the other, a GET of the metrics
    endpoint answers 200 with the plain text "Hits: " followed by the number
    of those requests in decimal, as long as it is within the range of
    [int32]. *)
Theorem X16_earlier_hits_text
    (next : http.Request -> Earlier.handler unit) (cfg : Earlier.apiConfig)
    (reset get : http.Request) (rs : list http.Request) :
  Earlier.leavesConfig next ->
  http.Method reset = http.MethodPost ->
  http.Method get = http.MethodGet ->
  Z.of_nat (length rs) <= Int32.MaxInt32 ->
  let '(cfg1, w1) := Earlier.serve Earlier.resetHandler cfg reset in
  let cfg2 := Earlier.serveAll (Earlier.middlewareMetricsInc next) rs cfg1 in
  cfg1 = {| Earlier.fileserverHits := 0 |}
  /\ w1 = {| header := ∅; status := Some http.StatusOK; body := [] |}
  /\ Earlier.serve Earlier.metricsHandler cfg2 get
     = (cfg2,
        {| header := {["Content-Type" := "text/plain; charset=utf-8"]};
           status := Some http.StatusOK;
           body := [Bytes ("Hits: " +:+ Earlier.fmt_d (Z.of_nat (length rs)))] |}).
Proof.
  intros Hnext Hreset Hget Hlen.
  unfold Earlier.serve at 1. unfold Earlier.resetHandler.
  rewrite (method_is_POST _ Hreset). run_earlier.
  split; [done|]. split; [done|].
  rewrite (Earlier_serveAll_hits next rs Hnext _ 0 0) by done.
  unfold Earlier.serve, Earlier.metricsHandler.
  rewrite (method_is_GET _ Hget). run_earlier.
  rewrite Int32_wrap_id; [done|].
  unfold Int32.MinInt32, Int32.MaxInt32 in *. lia.
Qed.

Lemma X16_earlier_hits_text_witness :
  let get := {| http.Method := "GET"; http.Body := Some "" |} in
  let '(cfg1, w1) :=
    Earlier.serve Earlier.resetHandler {| Earlier.fileserverHits := 31 |}
      {| http.Method := "POST"; http.Body := Some "" |} in
  let cfg2 := Earlier.serveAll (Earlier.middlewareMetricsInc Earlier.sample_fileServer)
                [get; get] cfg1 in
  cfg1 = {| Earlier.fileserverHits := 0 |}
  /\ w1 = {| header := ∅; status := Some 200; body := [] |}
  /\ Earlier.serve Earlier.metricsHandler cfg2 get
     = (cfg2,
        {| header := {["Content-Type" := "text/plain; charset=utf-8"]};
           status := Some 200; body := [Bytes "Hits: 2"] |}).
Proof.
  refine (X16_earlier_hits_text Earlier.sample_fileServer
            {| Earlier.fileserverHits := 31 |}
            {| http.Method := "POST"; http.Body := Some "" |}
            {| http.Method := "GET"; http.Body := Some "" |}
            [ {| http.Method := "GET"; http.Body := Some "" |};
              {| http.Method := "GET"; http.Body := Some "" |} ]
            Earlier_sample_fileServer_leavesConfig eq_refl eq_refl _).
  vm_compute. discriminate.
Defined.

(** ** Cleaning and spaces *)

Lemma Split_app s1 s2 sep :
  strings.Split (s1 +:+ String sep s2) sep
  = strings.Split s1 sep ++ strings.Split s2 sep.
Proof.
  induction s1 as [|c s1 IH].
  - change ("" +:+ String sep s2) with (String sep s2).
    cbn [strings.Split]. by rewrite Ascii.eqb_refl.
  - rewrite String_app_cons. cbn [strings.Split]. rewrite IH.
    destruct (Ascii.eqb c sep); [done|].
    pose proof (Split_not_nil s1 sep).
    by destruct (strings.Split s1 sep).
Qed.

Lemma Join_app ws1 ws2 sep :
  ws1 <> [] -> ws2 <> [] ->
  strings.Join (ws1 ++ ws2) sep
  = strings.Join ws1 sep +:+ sep +:+ strings.Join ws2 sep.
Proof.
  intros H1 H2. induction ws1 as [|w ws1 IH]; [done|].
  destruct ws1 as [|w' ws1].
  - cbn [app]. by rewrite Join_cons.
  - change ((w :: w' :: ws1) ++ ws2) with (w :: ((w' :: ws1) ++ ws2)).
    rewrite Join_cons by done. rewrite IH by done.
    rewrite (Join_cons w (w' :: ws1)) by done.
    by rewrite !String_app_assoc.
Qed.

(** X17: cleaning goes token by token: the cleaned form of two texts joined
    by a space is the two cleaned forms joined by a space. *)
Theorem X17_clean_over_space (To_LowerCase : Z -> Z) (a b : string) :
  cleanChirp To_LowerCase (a +:+ " " +:+ b)
  = cleanChirp To_LowerCase a +:+ " " +:+ cleanChirp To_LowerCase b.
Proof.
  rewrite !cleanChirp_eq. unfold cleanChirp_ref.
  change (a +:+ " " +:+ b) with (a +:+ String " " b).
  rewrite Split_app, map_app.
  apply Join_app.
  - pose proof (Split_not_nil a " "). by destruct (strings.Split a " ").
  - pose proof (Split_not_nil b " "). by destruct (strings.Split b " ").
Qed.

(** * Evaluation on concrete inputs *)

Example clean_ex1 :
  cleanChirp noCase "This is a KerFuffle opinion I need to share"
  = "This is a **** opinion I need to share".
Proof. vm_compute. reflexivity. Qed.

Example clean_ex2 :
  cleanChirp noCase "Sharbert! is not  fornax" = "Sharbert! is not  ****".
Proof. vm_compute. reflexivity. Qed.

(** A token with the Kelvin sign for its first letter is a denylist word
    once lower-cased, and a token with letters beyond ASCII goes through
    [strings.Map] and is kept as written. *)
Example clean_ex3 :
  cleanChirp someCase "ÉCOLE KERFUFFLE kerfuffles"
  = "ÉCOLE **** kerfuffles".
Proof. vm_compute. reflexivity. Qed.

Example ToLower_ex :
  strings.ToLower someCase "ÉCOLE KERFUFFLE" = "école kerfuffle".
Proof. vm_compute. reflexivity. Qed.

Example RuneCount_ex :
  utf8.RuneCountInString "ÉCOLE" = 5%nat /\ String.length "ÉCOLE" = 6%nat.
Proof. split; reflexivity. Qed.

Example reset_ex :
  serve (resetHandler (sample_env false)) (sample_cfg 42 "dev")
        {| http.Method := "POST"; http.Body := Some "" |}
  = ({| fileserverHits := 0;
        db := {| database.users := []; database.chirps := [] |};
        platform := "dev" |},
     {| header := ∅; status := Some 200; body := [] |}).
Proof. reflexivity. Qed.
